(** * pycanopen: the Python facade over libcanopen

    A shallow embedding of [python/pycanopen/CANopen.py].  The module is a
    ctypes binding written for Python 2: strings are byte strings,
    [len(s)/2] is integer division and the variable of a list comprehension
    stays bound in the enclosing function once the comprehension has run.

    The protocol work is done by two shared libraries, [libcanopen.so] and
    [libc.so.6].  They are not part of the Python module, so they appear here
    as a record of functions over an abstract [World]; every call made
    through ctypes is appended to a log kept next to the instance. *)

From Stdlib Require Import ZArith List String Ascii Bool Lia Arith.
From Stdlib Require DecimalString HexString.
Import ListNotations.
Local Open Scope string_scope.
Local Open Scope Z_scope.

(** ** Exceptions and outcomes *)

(** The eight exception classes the module declares, followed by the
    built-in ones the interpreter raises on the paths modelled below. *)
Inductive exn : Type :=
| CANframeReadException
| CANframeWriteException
| CANSocketNotConnectedException
| CANopenFrameParseException
| CANframeParseException
| CANopenSDOUploadException
| CANopenSDODownloadException
| CANNothingToReadException
| AttributeError
| NameError
| ValueError
| IndexError.

Inductive outcome (A : Type) : Type :=
| Return (a : A)
| Raise (e : exn).
Arguments Return {A} a.
Arguments Raise {A} e.



(** ** ctypes integers *)

Definition c_uint8 (z : Z) : Z := z mod 2 ^ 8.
Definition c_uint16 (z : Z) : Z := z mod 2 ^ 16.
Definition c_uint32 (z : Z) : Z := z mod 2 ^ 32.

(** Attribute lookup on a [c_uint32] object holding [v]: the only data
    attribute of a simple ctypes object is [value]. *)
Definition c_uint32_getattr (v : Z) (name : string) : outcome Z :=
  if String.eqb name "value" then Return v else Raise AttributeError.

(** ** Byte strings *)

(** A Python 2 [str] is a sequence of 8-bit characters: [string].  A ctypes
    character buffer is a fixed-length array of them: [list ascii]. *)

Definition ord (c : ascii) : nat := nat_of_ascii c.

(** [chr(v)] raises ValueError outside [range(256)]. *)
Definition chr (v : Z) : outcome ascii :=
  if (0 <=? v) && (v <? 256) then Return (ascii_of_nat (Z.to_nat v))
  else Raise ValueError.

Definition hexchar (d : nat) : ascii :=
  match get d "0123456789abcdef" with
  | Some c => c
  | None => "0"%char
  end.

(** ["%.2x" % n] for [n < 256]: exactly two lower-case digits. *)
Definition fmt_02x (n : nat) : string :=
  String (hexchar (n / 16)) (String (hexchar (n mod 16)) EmptyString).

(** ["".join(l)] *)
Definition join (l : list string) : string := String.concat "" l.

(** [s[0:-2]]: the stop index [len(s) - 2] is clamped at 0. *)
Definition slice_0_minus2 (s : string) : string :=
  substring 0 (String.length s - 2) s.

(** ** [int(s, 16)] *)

Definition hexval (c : ascii) : option Z :=
  let n := Z.of_nat (nat_of_ascii c) in
  if (48 <=? n) && (n <=? 57) then Some (n - 48)
  else if (97 <=? n) && (n <=? 102) then Some (n - 87)
  else if (65 <=? n) && (n <=? 70) then Some (n - 55)
  else None.

Definition is_hexdigit (c : ascii) : bool :=
  match hexval c with Some _ => true | None => false end.

Definition is_space (c : ascii) : bool :=
  let n := nat_of_ascii c in
  (Nat.eqb n 32 || (Nat.leb 9 n && Nat.leb n 13))%bool.

Fixpoint lstrip (s : string) : string :=
  match s with
  | String c r => if is_space c then lstrip r else s
  | EmptyString => EmptyString
  end.

Fixpoint rstrip (s : string) : string :=
  match s with
  | String c r =>
      match rstrip r with
      | EmptyString => if is_space c then EmptyString else String c EmptyString
      | r' => String c r'
      end
  | EmptyString => EmptyString
  end.

Fixpoint digits16 (acc : Z) (s : string) : option Z :=
  match s with
  | EmptyString => Some acc
  | String c r =>
      match hexval c with
      | Some d => digits16 (16 * acc + d) r
      | None => None
      end
  end.

Definition strip_0x (s : string) : string :=
  match s with
  | String "0" (String "x" r) => r
  | String "0" (String "X" r) => r
  | _ => s
  end.

Definition unsigned16 (s : string) : option Z :=
  match strip_0x s with
  | EmptyString => None
  | d => digits16 0 d
  end.

(** Blanks around the literal, one optional sign, an optional [0x]
    prefix, then at least one digit; [None] stands for ValueError. *)
Definition int16 (s : string) : option Z :=
  match rstrip (lstrip s) with
  | String "+" r => unsigned16 r
  | String "-" r => option_map Z.opp (unsigned16 r)
  | r => unsigned16 r
  end.

(** The strings the download operations are specified for. *)
Fixpoint all_hex (s : string) : bool :=
  match s with
  | EmptyString => true
  | String c r => is_hexdigit c && all_hex r
  end.

(** ** The loop of the download operations

    [[chr(int(str_data[2*n:2*n+2], 16)) for n in range(m)]].  The loop
    variable [n] is an ordinary local of the enclosing function, so the
    model threads it: [None] while it is unbound, [Some i] after the
    iteration for [i]. *)

Fixpoint comprehension (str_data : string) (rng : list nat) (n : option nat)
  : outcome (list ascii * option nat) :=
  match rng with
  | [] => Return ([], n)
  | i :: rest =>
      match int16 (substring (2 * i) 2 str_data) with
      | None => Raise ValueError
      | Some v =>
          match chr v with
          | Raise e => Raise e
          | Return c =>
              match comprehension str_data rest (Some i) with
              | Raise e => Raise e
              | Return (cs, n') => Return (c :: cs, n')
              end
          end
      end
  end.

(** [m = len(str_data)/2] followed by the comprehension over [range(m)]. *)
Definition decode_hex (str_data : string) : outcome (list ascii * option nat) :=
  let m := (String.length str_data / 2)%nat in
  comprehension str_data (seq 0 m) None.

(** Reading a local that may be unbound. *)
Definition local {A} (v : option A) : outcome A :=
  match v with Some a => Return a | None => Raise NameError end.

(** [ct.create_string_buffer(init)] with a string: its characters and a
    terminating NUL. *)
Definition string_buffer_of (cs : list ascii) : list ascii := cs ++ [zero].

(** [ct.create_string_buffer(size)] with an integer: [size] NULs; a negative
    size is rejected with ValueError. *)
Definition string_buffer (size : Z) : outcome (list ascii) :=
  if size <? 0 then Raise ValueError else Return (repeat zero (Z.to_nat size)).

(** What a buffer of fixed length holds after foreign code has stored
    [written] from its start. *)
Definition stored (buf written : list ascii) : list ascii :=
  firstn (List.length buf) (written ++ skipn (List.length written) buf).

(** [data[i]] on a ctypes array: IndexError past the end. *)
Fixpoint hex_prefix (data : list ascii) (rng : list nat) : outcome (list string) :=
  match rng with
  | [] => Return []
  | i :: rest =>
      match nth_error data i with
      | None => Raise IndexError
      | Some d =>
          match hex_prefix data rest with
          | Raise e => Raise e
          | Return l => Return (fmt_02x (ord d) :: l)
          end
      end
  end.

(** [range(ret)] is empty for [ret <= 0]. *)
Definition range (z : Z) : list nat := seq 0 (Z.to_nat z).

(** ** The two ctypes structures *)

Module CANFrame.
Record t : Type := mk {
  can_id : Z;          (* c_uint32 *)
  can_dlc : Z;         (* c_uint8 *)
  align : list Z;      (* c_uint8 * 3 *)
  data : list Z        (* c_uint8 * 8 *)
}.
(** [CANFrame()]: ctypes zero-fills a fresh structure. *)
Definition fresh : t := mk 0 0 (repeat 0 3) (repeat 0 8).
End CANFrame.

Module CANopenFrame.
Record t : Type := mk {
  rtr : Z;             (* c_uint8 *)
  function_code : Z;   (* c_uint8 *)
  type : Z;            (* c_uint8 *)
  id : Z;              (* c_uint32 *)
  data : list Z;       (* c_uint8 * 8 *)
  data_len : Z         (* c_uint8 *)
}.
Definition fresh : t := mk 0 0 0 0 (repeat 0 8) 0.
End CANopenFrame.

(** A ctypes structure defines neither [__nonzero__] nor [__len__]: every
    instance is true. *)
Definition truth_of_structure {A : Type} (_ : A) : bool := true.

(** [self.sock] is [None] or the integer [can_socket_open] returned. *)
Definition truthy (s : option Z) : bool :=
  match s with
  | Some z => negb (z =? 0)
  | None => false
  end.

(** ctypes passes [None] as a null argument. *)
Definition handle (s : option Z) : Z :=
  match s with Some z => z | None => 0 end.

(** ** The foreign functions *)

(** One entry of the log per call made through ctypes, with the arguments
    as the callee receives them. *)
Inductive call : Type :=
| can_socket_open_call (interface : string)
| can_socket_close_call (sock : Z)
| read_call (sock : Z) (count : Z)
| canopen_frame_parse_call (can_frame : CANFrame.t)
| canopen_sdo_upload_exp_call (sock node index subindex : Z)
| canopen_sdo_download_exp_call (sock node index subindex data size : Z)
| canopen_sdo_upload_seg_call (sock node index subindex : Z)
    (data : list ascii) (size : Z)
| canopen_sdo_download_seg_call (sock node index subindex : Z)
    (data : list ascii) (size : Z)
| canopen_sdo_upload_block_call (sock node index subindex : Z)
    (data : list ascii) (size : Z)
| canopen_sdo_download_block_call (sock node index subindex : Z)
    (data : list ascii) (size : Z).

(** What comes back from a foreign call: the C return value, what the callee
    stored through the pointer it was given, and the world it leaves. *)
Record reply (World A : Type) : Type := mk_reply {
  ret : Z;
  out : A;
  after : World
}.
Arguments mk_reply {World A}.
Arguments ret {World A}.
Arguments out {World A}.
Arguments after {World A}.

(** The platform under the module: the shared libraries, the errno value
    ctypes keeps for [use_errno=True] libraries, and the two constants of
    Python's [errno] module the code compares it with. *)
Record Platform (World : Type) : Type := {
  EAGAIN : Z;
  EWOULDBLOCK : Z;
  get_errno : World -> Z;
  can_socket_open : string -> World -> reply World unit;
  can_socket_close : Z -> World -> reply World unit;
  read : Z -> Z -> World -> reply World CANFrame.t;
  canopen_frame_parse : CANFrame.t -> World -> reply World CANopenFrame.t;
  canopen_sdo_upload_exp : Z -> Z -> Z -> Z -> World -> reply World Z;
  canopen_sdo_download_exp :
    Z -> Z -> Z -> Z -> Z -> Z -> World -> reply World unit;
  canopen_sdo_upload_seg :
    Z -> Z -> Z -> Z -> list ascii -> Z -> World -> reply World (list ascii);
  canopen_sdo_download_seg :
    Z -> Z -> Z -> Z -> list ascii -> Z -> World -> reply World unit;
  canopen_sdo_upload_block :
    Z -> Z -> Z -> Z -> list ascii -> Z -> World -> reply World (list ascii);
  canopen_sdo_download_block :
    Z -> Z -> Z -> Z -> list ascii -> Z -> World -> reply World unit
}.
Arguments EAGAIN {World}.
Arguments EWOULDBLOCK {World}.
Arguments get_errno {World}.
Arguments can_socket_open {World}.
Arguments can_socket_close {World}.
Arguments read {World}.
Arguments canopen_frame_parse {World}.
Arguments canopen_sdo_upload_exp {World}.
Arguments canopen_sdo_download_exp {World}.
Arguments canopen_sdo_upload_seg {World}.
Arguments canopen_sdo_download_seg {World}.
Arguments canopen_sdo_upload_block {World}.
Arguments canopen_sdo_download_block {World}.

(** ** class CANopen *)

Section CANopen.
Context {World : Type}.
Variable lib : Platform World.

(** An instance together with what lies outside it. *)
Record Instance : Type := mk_instance {
  sock : option Z;
  world : World;
  calls : list call
}.

(** A method body: it may raise, and what it did before raising stays
    done. *)
Definition Py (A : Type) : Type := Instance -> outcome A * Instance.

Definition pure {A} (a : A) : Py A := fun s => (Return a, s).

Definition raise {A} (e : exn) : Py A := fun s => (Raise e, s).

Definition bind {A B} (m : Py A) (k : A -> Py B) : Py B :=
  fun s =>
    match m s with
    | (Return a, s') => k a s'
    | (Raise e, s') => (Raise e, s')
    end.

Definition lift {A} (o : outcome A) : Py A := fun s => (o, s).

Definition self_sock : Py (option Z) := fun s => (Return (sock s), s).

Definition set_self_sock (v : option Z) : Py unit :=
  fun s => (Return tt, mk_instance v (world s) (calls s)).

(** A call through ctypes: logged, and the world moves on. *)
Definition foreign {A} (c : call) (f : World -> reply World A) : Py (Z * A) :=
  fun s =>
    let r := f (world s) in
    (Return (ret r, out r), mk_instance (sock s) (after r) (calls s ++ [c])).

(** [ct.get_errno() in (errno.EAGAIN, errno.EWOULDBLOCK)] *)
Definition errno_would_block : Py bool :=
  fun s =>
    let e := get_errno lib (world s) in
    (Return ((e =? EAGAIN lib) || (e =? EWOULDBLOCK lib))%bool, s).

Local Notation "x <- c ;; k" := (bind c (fun x => k))
  (at level 61, c at next level, right associativity).

Definition init (interface : string) : Py unit :=
  r <- foreign (can_socket_open_call interface)
         (can_socket_open lib interface) ;;
  set_self_sock (Some (fst r)).

Definition close : Py unit :=
  s <- self_sock ;;
  if truthy s then
    _ <- foreign (can_socket_close_call (handle s))
           (can_socket_close lib (handle s)) ;;
    set_self_sock None
  else pure tt.

Definition open (interface : string) : Py unit :=
  s <- self_sock ;;
  _ <- (if truthy s then close else pure tt) ;;
  r <- foreign (can_socket_open_call interface)
         (can_socket_open lib interface) ;;
  set_self_sock (Some (fst r)).

Definition read_can_frame : Py CANFrame.t :=
  s <- self_sock ;;
  if truthy s then
    r <- foreign (read_call (handle s) 16) (read lib (handle s) 16) ;;
    if fst r =? 16 then pure (snd r)
    else
      wb <- errno_would_block ;;
      if wb then raise CANNothingToReadException
      else raise CANframeReadException
  else raise CANSocketNotConnectedException.

Definition parse_can_frame (can_frame : CANFrame.t) : Py CANopenFrame.t :=
  r <- foreign (canopen_frame_parse_call can_frame)
         (canopen_frame_parse lib can_frame) ;;
  if fst r =? 0 then pure (snd r)
  else raise CANopenFrameParseException.

Definition read_frame : Py CANopenFrame.t :=
  can_frame <- read_can_frame ;;
  if negb (truth_of_structure can_frame) then raise CANframeReadException
  else
    canopen_frame <- parse_can_frame can_frame ;;
    if negb (truth_of_structure canopen_frame)
    then raise CANopenFrameParseException
    else pure canopen_frame.

(** *** Expedited *)

Definition SDOUploadExp (node index subindex : Z) : Py Z :=
  s <- self_sock ;;
  r <- foreign
         (canopen_sdo_upload_exp_call (handle s) (c_uint8 node)
            (c_uint16 index) (c_uint8 subindex))
         (canopen_sdo_upload_exp lib (handle s) (c_uint8 node)
            (c_uint16 index) (c_uint8 subindex)) ;;
  let res := c_uint32 (snd r) in
  if negb (fst r =? 0) then
    wb <- errno_would_block ;;
    if wb then raise CANNothingToReadException
    else raise CANopenSDOUploadException
  else lift (c_uint32_getattr res "msg").

Definition SDODownloadExp (node index subindex data size : Z) : Py unit :=
  s <- self_sock ;;
  r <- foreign
         (canopen_sdo_download_exp_call (handle s) (c_uint8 node)
            (c_uint16 index) (c_uint8 subindex) (c_uint32 data)
            (c_uint16 size))
         (canopen_sdo_download_exp lib (handle s) (c_uint8 node)
            (c_uint16 index) (c_uint8 subindex) (c_uint32 data)
            (c_uint16 size)) ;;
  if negb (fst r =? 0) then
    wb <- errno_would_block ;;
    if wb then raise CANNothingToReadException
    else raise CANopenSDOUploadException
  else pure tt.

(** *** Segmented *)

Definition SDOUploadSeg (node index subindex size : Z) : Py string :=
  buf <- lift (string_buffer size) ;;
  s <- self_sock ;;
  r <- foreign
         (canopen_sdo_upload_seg_call (handle s) (c_uint8 node)
            (c_uint16 index) (c_uint8 subindex) buf (c_uint16 size))
         (canopen_sdo_upload_seg lib (handle s) (c_uint8 node)
            (c_uint16 index) (c_uint8 subindex) buf (c_uint16 size)) ;;
  let data := stored buf (snd r) in
  if fst r <? 0 then raise CANopenSDOUploadException
  else
    l <- lift (hex_prefix data (range (fst r))) ;;
    pure (join l).

Definition SDODownloadSeg (node index subindex : Z) (str_data : string)
    (size : Z) : Py unit :=
  d <- lift (decode_hex str_data) ;;
  let data := string_buffer_of (fst d) in
  s <- self_sock ;;
  n <- lift (local (snd d)) ;;
  r <- foreign
         (canopen_sdo_download_seg_call (handle s) (c_uint8 node)
            (c_uint16 index) (c_uint8 subindex) data
            (c_uint16 (Z.of_nat n)))
         (canopen_sdo_download_seg lib (handle s) (c_uint8 node)
            (c_uint16 index) (c_uint8 subindex) data
            (c_uint16 (Z.of_nat n))) ;;
  if negb (fst r =? 0) then raise CANopenSDOUploadException
  else pure tt.

(** *** Block *)

Definition SDOUploadBlock (node index subindex size : Z) : Py string :=
  buf <- lift (string_buffer size) ;;
  s <- self_sock ;;
  r <- foreign
         (canopen_sdo_upload_block_call (handle s) (c_uint8 node)
            (c_uint16 index) (c_uint8 subindex) buf (c_uint16 size))
         (canopen_sdo_upload_block lib (handle s) (c_uint8 node)
            (c_uint16 index) (c_uint8 subindex) buf (c_uint16 size)) ;;
  let data := stored buf (snd r) in
  if negb (fst r =? 0) then raise CANopenSDOUploadException
  else pure (slice_0_minus2 (join (map (fun d => fmt_02x (ord d)) data))).

Definition SDODownloadBlock (node index subindex : Z) (str_data : string)
    (size : Z) : Py unit :=
  d <- lift (decode_hex str_data) ;;
  let data := string_buffer_of (fst d) in
  s <- self_sock ;;
  n <- lift (local (snd d)) ;;
  r <- foreign
         (canopen_sdo_download_block_call (handle s) (c_uint8 node)
            (c_uint16 index) (c_uint8 subindex) data
            (c_uint16 (Z.of_nat n + 1)))
         (canopen_sdo_download_block lib (handle s) (c_uint8 node)
            (c_uint16 index) (c_uint8 subindex) data
            (c_uint16 (Z.of_nat n + 1))) ;;
  if negb (fst r =? 0) then raise CANopenSDOUploadException
  else pure tt.

End CANopen.

Arguments Instance World : clear implicits.
Arguments mk_instance {World} sock world calls.

(** The exception a method ends with, if any. *)
Definition raised {A S : Type} (r : outcome A * S) : option exn :=
  match fst r with Return _ => None | Raise e => Some e end.

(** ** The frame decoder's length check *)

(** Modelled from the spec: the length validation of the native decoder
    [canopen_frame_parse], which lives in libcanopen and not in the Python
    module.  Section 4.1: decoding fails with MalformedLength when [dlc] is
    not the fixed encapsulation length, 8 for SDO traffic. *)
Definition MalformedLength (f : CANFrame.t) : bool :=
  negb (CANFrame.can_dlc f =? 8).

(** A platform whose decoder performs that check: a malformed frame gets a
    non-zero return value. *)
Definition decoder_checks_length {World} (lib : Platform World) : Prop :=
  forall f w, MalformedLength f = true -> ret (canopen_frame_parse lib f w) <> 0.

(** ** A scripted platform

    A stand-in for the libraries with canned answers, used to run the
    methods on concrete inputs. *)
Module Scripted.

Record World : Type := script {
  answer : Z;                (* what the next call returns *)
  errno : Z;                 (* the errno it leaves *)
  word : Z;                  (* stored by an expedited upload *)
  bytes : list ascii;        (* stored by a segmented or block upload *)
  frame : CANFrame.t         (* stored by read *)
}.

Definition parse (f : CANFrame.t) : CANopenFrame.t :=
  CANopenFrame.mk 0
    (Z.shiftr (Z.land (CANFrame.can_id f) 1920) 7) 0
    (Z.land (CANFrame.can_id f) 127)
    (CANFrame.data f) (CANFrame.can_dlc f).

Definition lib : Platform World := {|
  EAGAIN := 11;
  EWOULDBLOCK := 11;
  get_errno := errno;
  can_socket_open := fun _ w => mk_reply 3 tt w;
  can_socket_close := fun _ w => mk_reply 0 tt w;
  read := fun _ _ w => mk_reply (answer w) (frame w) w;
  canopen_frame_parse := fun f w =>
    if MalformedLength f then mk_reply (-1) CANopenFrame.fresh w
    else mk_reply 0 (parse f) w;
  canopen_sdo_upload_exp := fun _ _ _ _ w => mk_reply (answer w) (word w) w;
  canopen_sdo_download_exp := fun _ _ _ _ _ _ w => mk_reply (answer w) tt w;
  canopen_sdo_upload_seg := fun _ _ _ _ _ _ w =>
    mk_reply (answer w) (bytes w) w;
  canopen_sdo_download_seg := fun _ _ _ _ _ _ w => mk_reply (answer w) tt w;
  canopen_sdo_upload_block := fun _ _ _ _ _ _ w =>
    mk_reply (answer w) (bytes w) w;
  canopen_sdo_download_block := fun _ _ _ _ _ _ w => mk_reply (answer w) tt w
|}.

Definition sdo_frame : CANFrame.t :=
  CANFrame.mk 1413 8 [0; 0; 0] [67; 0; 16; 0; 120; 86; 52; 18].

Definition short_frame : CANFrame.t :=
  CANFrame.mk 1413 3 [0; 0; 0] [67; 0; 16; 0; 0; 0; 0; 0].

(** An instance bound to descriptor 3 whose next call answers [a] and
    leaves errno [e]. *)
Definition connected (a e : Z) : Instance World :=
  mk_instance (Some 3)
    (script a e 305419896 ["222"%char; "173"%char] sdo_frame) [].

Definition closed (a e : Z) : Instance World :=
  mk_instance None
    (script a e 305419896 ["222"%char; "173"%char] sdo_frame) [].

End Scripted.

(** ** What the libraries answer

    The reply to the one foreign call a method makes when started in state
    [st]; the theorems below speak about the return value found there. *)
Section Replies.
Context {World : Type}.
Variable lib : Platform World.
Variable st : Instance World.

Definition read_reply : reply World CANFrame.t :=
  read lib (handle (sock st)) 16 (world st).

Definition parse_reply (can_frame : CANFrame.t) : reply World CANopenFrame.t :=
  canopen_frame_parse lib can_frame (world st).

Definition upload_exp_reply (node index subindex : Z) : reply World Z :=
  canopen_sdo_upload_exp lib (handle (sock st)) (c_uint8 node)
    (c_uint16 index) (c_uint8 subindex) (world st).

Definition download_exp_reply (node index subindex data size : Z)
  : reply World unit :=
  canopen_sdo_download_exp lib (handle (sock st)) (c_uint8 node)
    (c_uint16 index) (c_uint8 subindex) (c_uint32 data) (c_uint16 size)
    (world st).

Definition upload_seg_reply (node index subindex size : Z)
  : reply World (list ascii) :=
  canopen_sdo_upload_seg lib (handle (sock st)) (c_uint8 node)
    (c_uint16 index) (c_uint8 subindex) (repeat zero (Z.to_nat size))
    (c_uint16 size) (world st).

Definition upload_block_reply (node index subindex size : Z)
  : reply World (list ascii) :=
  canopen_sdo_upload_block lib (handle (sock st)) (c_uint8 node)
    (c_uint16 index) (c_uint8 subindex) (repeat zero (Z.to_nat size))
    (c_uint16 size) (world st).

(** For the downloads the buffer and the length come out of the
    comprehension. *)
Definition download_seg_reply (node index subindex : Z) (data : list ascii)
    (n : nat) : reply World unit :=
  canopen_sdo_download_seg lib (handle (sock st)) (c_uint8 node)
    (c_uint16 index) (c_uint8 subindex) (string_buffer_of data)
    (c_uint16 (Z.of_nat n)) (world st).

Definition download_block_reply (node index subindex : Z) (data : list ascii)
    (n : nat) : reply World unit :=
  canopen_sdo_download_block lib (handle (sock st)) (c_uint8 node)
    (c_uint16 index) (c_uint8 subindex) (string_buffer_of data)
    (c_uint16 (Z.of_nat n + 1)) (world st).

(** The errno test as the method sees it after a call that left [w]. *)
Definition would_block (w : World) : bool :=
  (get_errno lib w =? EAGAIN lib) || (get_errno lib w =? EWOULDBLOCK lib).

End Replies.

(** ** The methods as a family *)

Inductive operation : Type :=
| do_init (interface : string)
| do_open (interface : string)
| do_close
| do_read_can_frame
| do_parse_can_frame (can_frame : CANFrame.t)
| do_read_frame
| do_SDOUploadExp (node index subindex : Z)
| do_SDODownloadExp (node index subindex data size : Z)
| do_SDOUploadSeg (node index subindex size : Z)
| do_SDODownloadSeg (node index subindex : Z) (str_data : string) (size : Z)
| do_SDOUploadBlock (node index subindex size : Z)
| do_SDODownloadBlock (node index subindex : Z) (str_data : string) (size : Z).

(** The exception a call of the method ends with, if any. *)
Definition run_raised {World} (lib : Platform World) (op : operation)
    (st : Instance World) : option exn :=
  match op with
  | do_init i => raised (init lib i st)
  | do_open i => raised (open lib i st)
  | do_close => raised (close lib st)
  | do_read_can_frame => raised (read_can_frame lib st)
  | do_parse_can_frame f => raised (parse_can_frame lib f st)
  | do_read_frame => raised (read_frame lib st)
  | do_SDOUploadExp n i s => raised (SDOUploadExp lib n i s st)
  | do_SDODownloadExp n i s d z => raised (SDODownloadExp lib n i s d z st)
  | do_SDOUploadSeg n i s z => raised (SDOUploadSeg lib n i s z st)
  | do_SDODownloadSeg n i s d z => raised (SDODownloadSeg lib n i s d z st)
  | do_SDOUploadBlock n i s z => raised (SDOUploadBlock lib n i s z st)
  | do_SDODownloadBlock n i s d z => raised (SDODownloadBlock lib n i s d z st)
  end.

(** [k] times the two characters [00]. *)
Fixpoint hex_zeros (k : nat) : string :=
  match k with
  | O => EmptyString
  | S k' => String "0" (String "0" (hex_zeros k'))
  end.

(** 65536 and 65537 zero bytes, written in hexadecimal. *)
Definition zeros_65536 : string := hex_zeros (Z.to_nat 65536).
Definition zeros_65537 : string := hex_zeros (Z.to_nat 65537).

(** The state a call of the method leaves. *)
Definition run_state {World} (lib : Platform World) (op : operation)
    (st : Instance World) : Instance World :=
  match op with
  | do_init i => snd (init lib i st)
  | do_open i => snd (open lib i st)
  | do_close => snd (close lib st)
  | do_read_can_frame => snd (read_can_frame lib st)
  | do_parse_can_frame f => snd (parse_can_frame lib f st)
  | do_read_frame => snd (read_frame lib st)
  | do_SDOUploadExp n i s => snd (SDOUploadExp lib n i s st)
  | do_SDODownloadExp n i s d z => snd (SDODownloadExp lib n i s d z st)
  | do_SDOUploadSeg n i s z => snd (SDOUploadSeg lib n i s z st)
  | do_SDODownloadSeg n i s d z => snd (SDODownloadSeg lib n i s d z st)
  | do_SDOUploadBlock n i s z => snd (SDOUploadBlock lib n i s z st)
  | do_SDODownloadBlock n i s d z => snd (SDODownloadBlock lib n i s d z st)
  end.

(** The methods that assign [self.sock]. *)
Definition assigns_sock (op : operation) : bool :=
  match op with
  | do_init _ | do_open _ | do_close => true
  | _ => false
  end.

(** ** Reading the call log *)

(** The buffer and the length handed over together, for the four calls that
    take a buffer. *)
Definition buffer_and_length (c : call) : option (list ascii * Z) :=
  match c with
  | canopen_sdo_upload_seg_call _ _ _ _ data size
  | canopen_sdo_download_seg_call _ _ _ _ data size
  | canopen_sdo_upload_block_call _ _ _ _ data size
  | canopen_sdo_download_block_call _ _ _ _ data size => Some (data, size)
  | _ => None
  end.

Definition within_buffer (c : call) : Prop :=
  match buffer_and_length c with
  | Some (data, size) => 0 <= size <= Z.of_nat (List.length data)
  | None => True
  end.

(** Node, index and sub-index of an SDO call. *)
Definition sdo_address (c : call) : option (Z * Z * Z) :=
  match c with
  | canopen_sdo_upload_exp_call _ node index subindex
  | canopen_sdo_download_exp_call _ node index subindex _ _
  | canopen_sdo_upload_seg_call _ node index subindex _ _
  | canopen_sdo_download_seg_call _ node index subindex _ _
  | canopen_sdo_upload_block_call _ node index subindex _ _
  | canopen_sdo_download_block_call _ node index subindex _ _ =>
      Some (node, index, subindex)
  | _ => None
  end.

Definition address_in_range (c : call) : Prop :=
  match sdo_address c with
  | Some (node, index, subindex) =>
      0 <= node < 2 ^ 8 /\ 0 <= index < 2 ^ 16 /\ 0 <= subindex < 2 ^ 8
  | None => True
  end.


(** The hexadecimal form the uploads return. *)
Definition hexlify (data : list ascii) : string :=
  join (map (fun d => fmt_02x (ord d)) data).

Definition well_formed_call (c : call) : Prop :=
  within_buffer c /\ address_in_range c.

(** ** The [%] operator on strings *)

(** The values the module formats: [None], integers and strings. *)
Inductive pyval : Type :=
| PyNone
| PyInt (z : Z)
| PyStr (s : string).

(** A formatted string, or the TypeError the operator ends in.  The last
    constructor stands for conversions the module does not use. *)
Inductive formatted : Type :=
| Formatted (s : string)
| NotEnoughArguments
| NotAllConverted
| NumberRequired
| OtherConversion.

Definition decimal (z : Z) : string :=
  DecimalString.NilZero.string_of_int (Z.to_int z).

(** [str(v)] *)
Definition py_str (v : pyval) : string :=
  match v with
  | PyNone => "None"
  | PyInt z => decimal z
  | PyStr s => s
  end.

Definition hex_digits (n : N) : string :=
  match n with
  | N0 => "0"
  | Npos p => HexString.Raw.of_pos p EmptyString
  end.

(** ["%.2x" % z]: at least two digits, the sign in front. *)
Definition fmt_x2 (z : Z) : string :=
  let d := hex_digits (Z.abs_N z) in
  let padded := if Nat.ltb (String.length d) 2 then String "0" d else d in
  if z <? 0 then String "-" padded else padded.

Definition prepend (s : string) (r : formatted) : formatted :=
  match r with
  | Formatted t => Formatted (s ++ t)
  | e => e
  end.

(** [fmt % args] for the conversions [%s], [%d], [%.2x] and [%%], read from
    left to right. *)
Fixpoint py_format (fmt : string) (args : list pyval) : formatted :=
  match fmt with
  | EmptyString =>
      match args with
      | [] => Formatted EmptyString
      | _ :: _ => NotAllConverted
      end
  | String "%" (String "%" rest) => prepend "%" (py_format rest args)
  | String "%" (String "s" rest) =>
      match args with
      | [] => NotEnoughArguments
      | v :: args' => prepend (py_str v) (py_format rest args')
      end
  | String "%" (String "d" rest) =>
      match args with
      | [] => NotEnoughArguments
      | PyInt z :: args' => prepend (decimal z) (py_format rest args')
      | _ :: _ => NumberRequired
      end
  | String "%" (String "." (String "2" (String "x" rest))) =>
      match args with
      | [] => NotEnoughArguments
      | PyInt z :: args' => prepend (fmt_x2 z) (py_format rest args')
      | _ :: _ => NumberRequired
      end
  | String "%" _ => OtherConversion
  | String c rest => prepend (String c EmptyString) (py_format rest args)
  end.

(** The line feed written [\n] in the source. *)
Definition nl : string := String "010" EmptyString.

(** ** [__str__] of the structures and of the exceptions *)

(** [" ".join(["%.2x" % (x,) for x in self.data])] *)
Definition data_str (data : list Z) : string :=
  String.concat " " (map fmt_x2 data).

Definition CANFrame_str (f : CANFrame.t) : formatted :=
  py_format "CAN Frame: ID=%.2x DLC=%.2x DATA=[%s]"
    [PyInt (CANFrame.can_id f); PyInt (CANFrame.can_dlc f);
     PyStr (data_str (CANFrame.data f))].

Definition CANopenFrame_str (f : CANopenFrame.t) : formatted :=
  py_format "CANopen Frame: RTR=%d FC=0x%.2x ID=0x%.2x [len=%d] %s"
    [PyInt (CANopenFrame.rtr f); PyInt (CANopenFrame.function_code f);
     PyInt (CANopenFrame.id f); PyInt (CANopenFrame.data_len f);
     PyStr (data_str (CANopenFrame.data f))].






Definition CANopenSDOUploadException_str (msg : pyval) : formatted :=
  py_format ("Could not perform SDO Upload. " ++ nl ++ "%s") [msg].



(** ** Unfolding the method bodies *)

Ltac run_method :=
  cbv beta delta [bind pure raise lift self_sock set_self_sock foreign
                  errno_would_block] iota; cbn [fst snd sock world calls].

Ltac each_ascii c := destruct c as [[] [] [] [] [] [] [] []].

(** ** First runs *)

Example fmt_02x_171 : fmt_02x 171 = "ab".
Proof. reflexivity. Qed.

Example int16_ff : int16 "fF" = Some 255.
Proof. reflexivity. Qed.

Example int16_blank : int16 " 7" = Some 7.
Proof. reflexivity. Qed.

Example int16_bad : int16 "0x" = None.
Proof. reflexivity. Qed.

Example decode_hex_0a1b :
  decode_hex "0a1b" = Return (["010"%char; "027"%char], Some 1%nat).
Proof. reflexivity. Qed.

Example decode_hex_empty : decode_hex "" = Return ([], None).
Proof. reflexivity. Qed.

Example slice_abcd : slice_0_minus2 "abcd" = "ab".
Proof. reflexivity. Qed.

Example scripted_parse :
  fst (parse_can_frame Scripted.lib Scripted.sdo_frame (Scripted.connected 0 0))
  = Return (CANopenFrame.mk 0 11 0 5 [67; 0; 16; 0; 120; 86; 52; 18] 8).
Proof. reflexivity. Qed.

Example scripted_upload_seg :
  fst (SDOUploadSeg Scripted.lib 5 4096 0 4 (Scripted.connected 2 0))
  = Return "dead".
Proof. reflexivity. Qed.

Example scripted_upload_block :
  fst (SDOUploadBlock Scripted.lib 5 4096 0 2 (Scripted.connected 0 0))
  = Return "de".
Proof. reflexivity. Qed.

Example scripted_download_block_log :
  calls (snd (SDODownloadBlock Scripted.lib 5 4096 0 "0a1b2c" 0
                (Scripted.connected 0 0)))
  = [canopen_sdo_download_block_call 3 5 4096 0
       ["010"%char; "027"%char; ","%char; zero] 3].
Proof. reflexivity. Qed.

Example scripted_download_seg_log :
  calls (snd (SDODownloadSeg Scripted.lib 5 4096 0 "0a1b2c" 0
                (Scripted.connected 0 0)))
  = [canopen_sdo_download_seg_call 3 5 4096 0
       ["010"%char; "027"%char; ","%char; zero] 2].
Proof. reflexivity. Qed.

Example scripted_download_empty :
  SDODownloadBlock Scripted.lib 5 4096 0 "" 0 (Scripted.connected 0 0)
  = (Raise NameError, Scripted.connected 0 0).
Proof. reflexivity. Qed.

(** ** Reading frames *)

Section Reading.
Context {World : Type}.
Variable lib : Platform World.

Lemma read_can_frame_eq (st : Instance World) :
  read_can_frame lib st =
  if truthy (sock st) then
    let r := read_reply lib st in
    let st' := mk_instance (sock st) (after r)
                 (calls st ++ [read_call (handle (sock st)) 16]) in
    if ret r =? 16 then (Return (out r), st')
    else if would_block lib (after r)
         then (Raise CANNothingToReadException, st')
         else (Raise CANframeReadException, st')
  else (Raise CANSocketNotConnectedException, st).
Proof.
  unfold read_can_frame, read_reply, would_block. run_method.
  destruct (truthy (sock st)); [|reflexivity]. run_method.
  destruct (ret _ =? 16); [reflexivity|]. run_method.
  destruct (_ || _)%bool; reflexivity.
Qed.

Lemma close_eq (st : Instance World) :
  close lib st =
  if truthy (sock st) then
    (Return tt,
     mk_instance None
       (after (can_socket_close lib (handle (sock st)) (world st)))
       (calls st ++ [can_socket_close_call (handle (sock st))]))
  else (Return tt, st).
Proof.
  unfold close. run_method. destruct (truthy (sock st)); reflexivity.
Qed.

Lemma parse_can_frame_eq (can_frame : CANFrame.t) (st : Instance World) :
  parse_can_frame lib can_frame st =
  let r := parse_reply lib st can_frame in
  let st' := mk_instance (sock st) (after r)
               (calls st ++ [canopen_frame_parse_call can_frame]) in
  if ret r =? 0 then (Return (out r), st')
  else (Raise CANopenFrameParseException, st').
Proof.
  unfold parse_can_frame, parse_reply. run_method.
  destruct (ret _ =? 0); reflexivity.
Qed.

(** C6.  On a connected socket, when the read does not deliver a full
    16-byte frame, [read_can_frame] raises CANNothingToReadException if
    errno is EAGAIN or EWOULDBLOCK and CANframeReadException for every
    other errno; these are two different exceptions. *)
Theorem read_can_frame_short_read (st : Instance World) :
  truthy (sock st) = true ->
  ret (read_reply lib st) <> 16 ->
  let e := get_errno lib (after (read_reply lib st)) in
  (e = EAGAIN lib \/ e = EWOULDBLOCK lib ->
   fst (read_can_frame lib st) = Raise CANNothingToReadException)
  /\ (e <> EAGAIN lib /\ e <> EWOULDBLOCK lib ->
      fst (read_can_frame lib st) = Raise CANframeReadException)
  /\ CANNothingToReadException <> CANframeReadException.
Proof.
  intros Hsock Hret e. rewrite read_can_frame_eq, Hsock. cbv zeta.
  apply Z.eqb_neq in Hret. rewrite Hret. unfold would_block. fold e.
  repeat split.
  - intros [H | H]; rewrite H, Z.eqb_refl, ?orb_true_r; reflexivity.
  - intros [H1 H2]. apply Z.eqb_neq in H1, H2. rewrite H1, H2. reflexivity.
  - discriminate.
Qed.

(** C10.  When the socket handle is absent, [read_can_frame] raises
    CANSocketNotConnectedException and [close] returns, both without any
    foreign call: the instance, the world and the call log are unchanged.
    Closing twice is the same as closing once, from any state. *)
Theorem absent_socket_no_foreign_call (st : Instance World) :
  truthy (sock st) = false ->
  read_can_frame lib st = (Raise CANSocketNotConnectedException, st)
  /\ close lib st = (Return tt, st)
  /\ forall st0 : Instance World,
       close lib (snd (close lib st0)) = close lib st0.
Proof.
  intros Hsock. rewrite read_can_frame_eq, close_eq, Hsock.
  repeat split. intros st0. rewrite (close_eq st0).
  destruct (truthy (sock st0)) eqn:H0; cbn [snd]; rewrite close_eq.
  - reflexivity.
  - rewrite H0. reflexivity.
Qed.

(** C7.  With a decoder that performs the length check, [parse_can_frame]
    raises CANopenFrameParseException for every frame the decoder rejects,
    in particular for every frame whose dlc is not 8, and it returns a
    frame only when the decoder returned 0: the frame is then the one the
    decoder filled in. *)
Theorem parse_can_frame_all_or_nothing
    (can_frame : CANFrame.t) (st : Instance World) :
  decoder_checks_length lib ->
  (ret (parse_reply lib st can_frame) <> 0 ->
   fst (parse_can_frame lib can_frame st) = Raise CANopenFrameParseException)
  /\ (CANFrame.can_dlc can_frame <> 8 ->
      fst (parse_can_frame lib can_frame st)
      = Raise CANopenFrameParseException)
  /\ (forall f, fst (parse_can_frame lib can_frame st) = Return f ->
        ret (parse_reply lib st can_frame) = 0
        /\ f = out (parse_reply lib st can_frame)).
Proof.
  intros Hcheck. rewrite parse_can_frame_eq. cbv zeta.
  assert (Hrej : ret (parse_reply lib st can_frame) <> 0 ->
                 fst (if ret (parse_reply lib st can_frame) =? 0
                      then (Return (out (parse_reply lib st can_frame)),
                            mk_instance (sock st)
                              (after (parse_reply lib st can_frame))
                              (calls st ++
                                 [canopen_frame_parse_call can_frame]))
                      else (Raise CANopenFrameParseException,
                            mk_instance (sock st)
                              (after (parse_reply lib st can_frame))
                              (calls st ++
                                 [canopen_frame_parse_call can_frame])))
                 = Raise CANopenFrameParseException).
  { intros H. apply Z.eqb_neq in H. rewrite H. reflexivity. }
  split; [exact Hrej|]. split.
  - intros Hdlc. apply Hrej. apply Hcheck. unfold MalformedLength.
    apply Z.eqb_neq in Hdlc. rewrite Hdlc. reflexivity.
  - intros f. destruct (ret (parse_reply lib st can_frame) =? 0) eqn:E.
    + cbn [fst]. intros H. injection H as <-. apply Z.eqb_eq in E. auto.
    + discriminate.
Qed.

(** [read_frame] hands on whatever its two steps raise; its own two
    checks never fire. *)
Lemma read_frame_eq (st : Instance World) :
  read_frame lib st =
  match read_can_frame lib st with
  | (Return can_frame, st') => parse_can_frame lib can_frame st'
  | (Raise e, st') => (Raise e, st')
  end.
Proof.
  unfold read_frame. run_method.
  destruct (read_can_frame lib st) as [[f | e] st']; [|reflexivity].
  cbn [truth_of_structure negb].
  destruct (parse_can_frame lib f st') as [[g | e] st'']; reflexivity.
Qed.

End Reading.

(** ** Helpers on strings and buffers *)

Lemma join_cons (x : string) (xs : list string) :
  join (x :: xs) = (x ++ join xs)%string.
Proof.
  unfold join. destruct xs as [|y ys]; cbn [concat].
  - induction x as [|c x IH]; cbn; [reflexivity | now rewrite <- IH].
  - reflexivity.
Qed.

Lemma join_fmt_cons (d : ascii) (l : list ascii) :
  join (map (fun d => fmt_02x (ord d)) (d :: l))
  = String (hexchar (ord d / 16))
      (String (hexchar (ord d mod 16))
         (join (map (fun d => fmt_02x (ord d)) l))).
Proof. cbn [map]. rewrite join_cons. reflexivity. Qed.

Lemma length_join_fmt (l : list ascii) :
  String.length (join (map (fun d => fmt_02x (ord d)) l))
  = (2 * List.length l)%nat.
Proof.
  induction l as [|d l IH]; [reflexivity|].
  rewrite join_fmt_cons. cbn [String.length List.length]. rewrite IH. lia.
Qed.

Lemma substring_join_fmt (k : nat) (l : list ascii) :
  substring 0 (2 * k) (join (map (fun d => fmt_02x (ord d)) l))
  = join (map (fun d => fmt_02x (ord d)) (firstn k l)).
Proof.
  revert l. induction k as [|k IH]; intros l.
  - cbn [Nat.mul firstn map]. destruct (join _); reflexivity.
  - destruct l as [|d l]; [reflexivity|].
    replace (2 * S k)%nat with (S (S (2 * k))) by lia.
    cbn [firstn]. rewrite !join_fmt_cons. cbn [substring]. now rewrite IH.
Qed.

Lemma slice_join_fmt (l : list ascii) :
  slice_0_minus2 (join (map (fun d => fmt_02x (ord d)) l))
  = join (map (fun d => fmt_02x (ord d)) (firstn (List.length l - 1) l)).
Proof.
  unfold slice_0_minus2. rewrite length_join_fmt.
  replace (2 * List.length l - 2)%nat with (2 * (List.length l - 1))%nat by lia.
  apply substring_join_fmt.
Qed.

Lemma length_stored (buf written : list ascii) :
  List.length (stored buf written) = List.length buf.
Proof.
  unfold stored. rewrite length_firstn, length_app, length_skipn. lia.
Qed.

Lemma hex_prefix_within (data : list ascii) (a k : nat) :
  (a + k <= List.length data)%nat ->
  hex_prefix data (seq a k)
  = Return (map (fun d => fmt_02x (ord d)) (firstn k (skipn a data))).
Proof.
  revert a. induction k as [|k IH]; intros a Hk; [reflexivity|].
  cbn [seq hex_prefix].
  destruct (nth_error data a) as [d|] eqn:E.
  - rewrite IH by lia.
    assert (Hs : skipn a data = d :: skipn (S a) data).
    { clear - E. revert data E. induction a as [|a IH]; intros [|x data] E;
        try discriminate; cbn in *.
      - now injection E as ->.
      - now apply IH. }
    rewrite Hs. reflexivity.
  - apply nth_error_None in E. lia.
Qed.

Lemma hex_prefix_beyond (data : list ascii) (k : nat) :
  (List.length data < k)%nat -> hex_prefix data (seq 0 k) = Raise IndexError.
Proof.
  intros Hk.
  assert (G : forall j a, (a <= List.length data < a + j)%nat ->
                          hex_prefix data (seq a j) = Raise IndexError).
  { induction j as [|j IH]; intros a Ha; [lia|]. cbn [seq hex_prefix].
    destruct (nth_error data a) as [d|] eqn:E; [|reflexivity].
    rewrite IH; [reflexivity|].
    assert (a < List.length data)%nat
      by (apply nth_error_Some; congruence). lia. }
  apply G. lia.
Qed.

(** ** Decoding hexadecimal strings *)

Lemma hexdigit_value (c : ascii) :
  is_hexdigit c = true ->
  is_space c = false /\ exists d, hexval c = Some d /\ 0 <= d < 16.
Proof.
  each_ascii c; intros H; try discriminate H;
    (split;
     [reflexivity
     | eexists; split;
       [reflexivity | vm_compute; split; [discriminate | reflexivity]]]).
Qed.

Lemma int16_unsigned (c : ascii) (r : string) :
  is_hexdigit c = true ->
  match String c r with
  | String "+" r' => unsigned16 r'
  | String "-" r' => option_map Z.opp (unsigned16 r')
  | r' => unsigned16 r'
  end = unsigned16 (String c r).
Proof. each_ascii c; intros H; try discriminate H; reflexivity. Qed.

Lemma strip_0x_hex (c1 c2 : ascii) (r : string) :
  is_hexdigit c2 = true ->
  strip_0x (String c1 (String c2 r)) = String c1 (String c2 r).
Proof.
  each_ascii c1; try reflexivity.
  each_ascii c2; intros H; try discriminate H; reflexivity.
Qed.

Lemma int16_hex_pair (c1 c2 : ascii) :
  is_hexdigit c1 = true -> is_hexdigit c2 = true ->
  exists v, int16 (String c1 (String c2 EmptyString)) = Some v /\ 0 <= v < 256.
Proof.
  intros H1 H2.
  destruct (hexdigit_value c1 H1) as (S1 & d1 & E1 & R1).
  destruct (hexdigit_value c2 H2) as (S2 & d2 & E2 & R2).
  unfold int16. cbn [lstrip]. rewrite S1. cbn [rstrip]. rewrite S2.
  rewrite int16_unsigned by assumption.
  unfold unsigned16. rewrite strip_0x_hex by assumption.
  cbn [digits16]. rewrite E1, E2. eexists; split; [reflexivity | lia].
Qed.

Lemma substring_hex_pair (s : string) (n : nat) :
  all_hex s = true -> (n + 2 <= String.length s)%nat ->
  exists c1 c2, substring n 2 s = String c1 (String c2 EmptyString)
                /\ is_hexdigit c1 = true /\ is_hexdigit c2 = true.
Proof.
  revert s. induction n as [|n IH]; intros s Hs Hn.
  - destruct s as [|c1 [|c2 r]]; cbn in Hn; try lia.
    cbn in Hs. apply andb_prop in Hs as [H1 Hs].
    apply andb_prop in Hs as [H2 _].
    exists c1, c2. cbn. destruct r; auto.
  - destruct s as [|c r]; cbn in Hn; [lia|].
    cbn in Hs. apply andb_prop in Hs as [_ Hs].
    cbn [substring]. apply IH; [assumption | lia].
Qed.

Lemma comprehension_hex (s : string) :
  all_hex s = true ->
  forall k a n0, (2 * (a + k) <= String.length s)%nat ->
    exists cs,
      comprehension s (seq a k) n0
      = Return (cs, match k with O => n0 | S _ => Some (a + k - 1)%nat end)
      /\ List.length cs = k.
Proof.
  intros Hs. induction k as [|k IH]; intros a n0 Hk.
  - exists []. split; reflexivity.
  - cbn [seq comprehension].
    destruct (substring_hex_pair s (2 * a) Hs) as (c1 & c2 & E & H1 & H2);
      [lia|].
    rewrite E. destruct (int16_hex_pair c1 c2 H1 H2) as (v & Ev & Rv).
    rewrite Ev. unfold chr.
    replace ((0 <=? v) && (v <? 256)) with true
      by (symmetry; apply andb_true_intro; split;
          [apply Z.leb_le | apply Z.ltb_lt]; lia).
    destruct (IH (S a) (Some a)) as (cs & Ec & Lc); [lia|].
    rewrite Ec. exists (ascii_of_nat (Z.to_nat v) :: cs). split.
    + f_equal. f_equal. destruct k; f_equal; lia.
    + cbn. now rewrite Lc.
Qed.

(** A string of hexadecimal digits with at least one full pair decodes, and
    the loop variable is left at the index of the last pair. *)
Lemma decode_hex_valid (s : string) :
  all_hex s = true -> (2 <= String.length s)%nat ->
  exists cs,
    decode_hex s = Return (cs, Some (String.length s / 2 - 1)%nat)
    /\ List.length cs = (String.length s / 2)%nat.
Proof.
  intros Hs Hl. unfold decode_hex.
  assert (Hm : (2 * (String.length s / 2) <= String.length s)%nat)
    by (apply Nat.Div0.mul_div_le).
  destruct (comprehension_hex s Hs (String.length s / 2) 0 None)
    as (cs & E & L); [exact Hm|].
  exists cs. split; [|exact L]. rewrite E.
  destruct (String.length s / 2)%nat eqn:D.
  - exfalso. apply Nat.div_small_iff in D; lia.
  - reflexivity.
Qed.

Lemma nonempty_even_length (s : string) :
  s <> EmptyString -> Nat.even (String.length s) = true ->
  (2 <= String.length s)%nat.
Proof.
  intros Hne Hev. destruct s as [|c1 [|c2 r]]; [congruence | discriminate |].
  cbn. lia.
Qed.

Lemma all_hex_zeros (k : nat) : all_hex (hex_zeros k) = true.
Proof. induction k as [|k IH]; [reflexivity | exact IH]. Qed.

Lemma length_hex_zeros (k : nat) : String.length (hex_zeros k) = (2 * k)%nat.
Proof. induction k as [|k IH]; cbn; [reflexivity | rewrite IH; lia]. Qed.

Lemma even_hex_zeros (k : nat) : Nat.even (String.length (hex_zeros k)) = true.
Proof.
  rewrite length_hex_zeros. induction k as [|k IH]; [reflexivity|].
  replace (2 * S k)%nat with (S (S (2 * k))) by lia. exact IH.
Qed.

Lemma half_hex_zeros (k : nat) : (String.length (hex_zeros k) / 2 = k)%nat.
Proof.
  rewrite length_hex_zeros, Nat.mul_comm. apply Nat.div_mul. discriminate.
Qed.

(** ** SDO transfers *)

Section SDO.
Context {World : Type}.
Variable lib : Platform World.

Lemma SDOUploadExp_eq (node index subindex : Z) (st : Instance World) :
  SDOUploadExp lib node index subindex st =
  let r := upload_exp_reply lib st node index subindex in
  let st' := mk_instance (sock st) (after r)
               (calls st ++
                  [canopen_sdo_upload_exp_call (handle (sock st))
                     (c_uint8 node) (c_uint16 index) (c_uint8 subindex)]) in
  if ret r =? 0 then (Raise AttributeError, st')
  else if would_block lib (after r)
       then (Raise CANNothingToReadException, st')
       else (Raise CANopenSDOUploadException, st').
Proof.
  unfold SDOUploadExp, upload_exp_reply, would_block. run_method.
  destruct (ret _ =? 0); cbn [negb]; [reflexivity|]. run_method.
  destruct (_ || _)%bool; reflexivity.
Qed.

Lemma SDODownloadExp_eq (node index subindex data size : Z)
    (st : Instance World) :
  SDODownloadExp lib node index subindex data size st =
  let r := download_exp_reply lib st node index subindex data size in
  let st' := mk_instance (sock st) (after r)
               (calls st ++
                  [canopen_sdo_download_exp_call (handle (sock st))
                     (c_uint8 node) (c_uint16 index) (c_uint8 subindex)
                     (c_uint32 data) (c_uint16 size)]) in
  if ret r =? 0 then (Return tt, st')
  else if would_block lib (after r)
       then (Raise CANNothingToReadException, st')
       else (Raise CANopenSDOUploadException, st').
Proof.
  unfold SDODownloadExp, download_exp_reply, would_block. run_method.
  destruct (ret _ =? 0); cbn [negb]; [reflexivity|]. run_method.
  destruct (_ || _)%bool; reflexivity.
Qed.

Lemma SDOUploadSeg_eq (node index subindex size : Z) (st : Instance World) :
  SDOUploadSeg lib node index subindex size st =
  if size <? 0 then (Raise ValueError, st)
  else
    let buf := repeat zero (Z.to_nat size) in
    let r := upload_seg_reply lib st node index subindex size in
    let st' := mk_instance (sock st) (after r)
                 (calls st ++
                    [canopen_sdo_upload_seg_call (handle (sock st))
                       (c_uint8 node) (c_uint16 index) (c_uint8 subindex)
                       buf (c_uint16 size)]) in
    if ret r <? 0 then (Raise CANopenSDOUploadException, st')
    else match hex_prefix (stored buf (out r)) (range (ret r)) with
         | Return l => (Return (join l), st')
         | Raise e => (Raise e, st')
         end.
Proof.
  unfold SDOUploadSeg, upload_seg_reply, string_buffer. run_method.
  destruct (size <? 0); [reflexivity|]. run_method.
  destruct (ret _ <? 0); [reflexivity|]. run_method.
  destruct (hex_prefix _ _); reflexivity.
Qed.

Lemma SDOUploadBlock_eq (node index subindex size : Z) (st : Instance World) :
  SDOUploadBlock lib node index subindex size st =
  if size <? 0 then (Raise ValueError, st)
  else
    let buf := repeat zero (Z.to_nat size) in
    let r := upload_block_reply lib st node index subindex size in
    let st' := mk_instance (sock st) (after r)
                 (calls st ++
                    [canopen_sdo_upload_block_call (handle (sock st))
                       (c_uint8 node) (c_uint16 index) (c_uint8 subindex)
                       buf (c_uint16 size)]) in
    if ret r =? 0
    then (Return (slice_0_minus2
                    (join (map (fun d => fmt_02x (ord d))
                             (stored buf (out r))))), st')
    else (Raise CANopenSDOUploadException, st').
Proof.
  unfold SDOUploadBlock, upload_block_reply, string_buffer. run_method.
  destruct (size <? 0); [reflexivity|]. run_method.
  destruct (ret _ =? 0); reflexivity.
Qed.

Lemma SDODownloadSeg_eq (node index subindex : Z) (str_data : string)
    (size : Z) (st : Instance World) :
  SDODownloadSeg lib node index subindex str_data size st =
  match decode_hex str_data with
  | Raise e => (Raise e, st)
  | Return (_, None) => (Raise NameError, st)
  | Return (data, Some n) =>
      let r := download_seg_reply lib st node index subindex data n in
      let st' := mk_instance (sock st) (after r)
                   (calls st ++
                      [canopen_sdo_download_seg_call (handle (sock st))
                         (c_uint8 node) (c_uint16 index) (c_uint8 subindex)
                         (string_buffer_of data) (c_uint16 (Z.of_nat n))]) in
      if ret r =? 0 then (Return tt, st')
      else (Raise CANopenSDOUploadException, st')
  end.
Proof.
  unfold SDODownloadSeg, download_seg_reply. run_method.
  destruct (decode_hex str_data) as [[data [n|]] | e]; try reflexivity.
  run_method. cbn [local]. destruct (ret _ =? 0); reflexivity.
Qed.

Lemma SDODownloadBlock_eq (node index subindex : Z) (str_data : string)
    (size : Z) (st : Instance World) :
  SDODownloadBlock lib node index subindex str_data size st =
  match decode_hex str_data with
  | Raise e => (Raise e, st)
  | Return (_, None) => (Raise NameError, st)
  | Return (data, Some n) =>
      let r := download_block_reply lib st node index subindex data n in
      let st' := mk_instance (sock st) (after r)
                   (calls st ++
                      [canopen_sdo_download_block_call (handle (sock st))
                         (c_uint8 node) (c_uint16 index) (c_uint8 subindex)
                         (string_buffer_of data)
                         (c_uint16 (Z.of_nat n + 1))]) in
      if ret r =? 0 then (Return tt, st')
      else (Raise CANopenSDOUploadException, st')
  end.
Proof.
  unfold SDODownloadBlock, download_block_reply. run_method.
  destruct (decode_hex str_data) as [[data [n|]] | e]; try reflexivity.
  run_method. cbn [local]. destruct (ret _ =? 0); reflexivity.
Qed.

(** The call a download makes for a string of hexadecimal digits with at
    least one pair: the buffer holds the decoded bytes and a NUL, and the
    loop variable is the index of the last pair. *)
Lemma SDODownloadBlock_call (node index subindex : Z) (str_data : string)
    (size : Z) (st : Instance World) :
  all_hex str_data = true -> (2 <= String.length str_data)%nat ->
  exists data,
    List.length data = S (String.length str_data / 2)
    /\ calls (snd (SDODownloadBlock lib node index subindex str_data size st))
       = (calls st ++
           [canopen_sdo_download_block_call (handle (sock st))
              (c_uint8 node) (c_uint16 index) (c_uint8 subindex) data
              (c_uint16 (Z.of_nat (String.length str_data / 2)))])%list.
Proof.
  intros Hs Hl. rewrite SDODownloadBlock_eq.
  destruct (decode_hex_valid str_data Hs Hl) as (cs & E & L). rewrite E.
  assert (Hk : (1 <= String.length str_data / 2)%nat)
    by (apply Nat.div_le_lower_bound; lia).
  exists (string_buffer_of cs). split.
  - unfold string_buffer_of. rewrite length_app, L. cbn. lia.
  - cbv zeta.
    replace (Z.of_nat (String.length str_data / 2 - 1) + 1)
      with (Z.of_nat (String.length str_data / 2)) by lia.
    destruct (ret _ =? 0); reflexivity.
Qed.

Lemma SDODownloadSeg_call (node index subindex : Z) (str_data : string)
    (size : Z) (st : Instance World) :
  all_hex str_data = true -> (2 <= String.length str_data)%nat ->
  exists data,
    List.length data = S (String.length str_data / 2)
    /\ calls (snd (SDODownloadSeg lib node index subindex str_data size st))
       = (calls st ++
           [canopen_sdo_download_seg_call (handle (sock st))
              (c_uint8 node) (c_uint16 index) (c_uint8 subindex) data
              (c_uint16 (Z.of_nat (String.length str_data / 2) - 1))])%list.
Proof.
  intros Hs Hl. rewrite SDODownloadSeg_eq.
  destruct (decode_hex_valid str_data Hs Hl) as (cs & E & L). rewrite E.
  assert (Hk : (1 <= String.length str_data / 2)%nat)
    by (apply Nat.div_le_lower_bound; lia).
  exists (string_buffer_of cs). split.
  - unfold string_buffer_of. rewrite length_app, L. cbn. lia.
  - cbv zeta.
    replace (Z.of_nat (String.length str_data / 2 - 1))
      with (Z.of_nat (String.length str_data / 2) - 1) by lia.
    destruct (ret _ =? 0); reflexivity.
Qed.

(** C1.  What the code does on the successful path: when the native
    expedited upload returns 0, [SDOUploadExp] reads the attribute [msg]
    of the [c_uint32] result and ends in AttributeError; the payload the
    library stored is not returned. *)
Theorem SDOUploadExp_success_raises (node index subindex : Z)
    (st : Instance World) :
  ret (upload_exp_reply lib st node index subindex) = 0 ->
  fst (SDOUploadExp lib node index subindex st) = Raise AttributeError.
Proof.
  intros H. rewrite SDOUploadExp_eq. cbv zeta.
  apply Z.eqb_eq in H. rewrite H. reflexivity.
Qed.

(** C2, amended.  When the native block upload succeeds on a buffer of
    [size >= 0] bytes, [SDOUploadBlock] returns the hexadecimal form of
    the buffer without its last byte: [2 * (size - 1)] characters, none
    when [size] is 0. *)
Theorem SDOUploadBlock_returns_all_but_last (node index subindex size : Z)
    (st : Instance World) :
  0 <= size ->
  ret (upload_block_reply lib st node index subindex size) = 0 ->
  let data := stored (repeat zero (Z.to_nat size))
                (out (upload_block_reply lib st node index subindex size)) in
  exists hex_str,
    fst (SDOUploadBlock lib node index subindex size st) = Return hex_str
    /\ List.length data = Z.to_nat size
    /\ hex_str = join (map (fun d => fmt_02x (ord d))
                         (firstn (Z.to_nat size - 1) data))
    /\ String.length hex_str = (2 * (Z.to_nat size - 1))%nat.
Proof.
  intros Hsize Hret data. rewrite SDOUploadBlock_eq.
  replace (size <? 0) with false by (symmetry; apply Z.ltb_ge; lia).
  cbv zeta. apply Z.eqb_eq in Hret. rewrite Hret. cbn [fst].
  fold data.
  assert (Hlen : List.length data = Z.to_nat size)
    by (unfold data; now rewrite length_stored, repeat_length).
  eexists. split; [reflexivity|]. split; [exact Hlen|].
  rewrite slice_join_fmt, Hlen. split; [reflexivity|].
  rewrite length_join_fmt, length_firstn, Hlen. lia.
Qed.

(** C3, amended.  For a non-empty even-length hexadecimal string with [k]
    decoded bytes, [SDODownloadBlock] makes one native call whose length
    argument is [c_uint16(n+1)], that is [k] modulo 2^16; it is exactly
    [k] whenever [k < 2^16]. *)
Theorem SDODownloadBlock_length_argument (node index subindex : Z)
    (str_data : string) (size : Z) (st : Instance World) :
  str_data <> EmptyString ->
  Nat.even (String.length str_data) = true ->
  all_hex str_data = true ->
  let k := (String.length str_data / 2)%nat in
  exists data len,
    calls (snd (SDODownloadBlock lib node index subindex str_data size st))
    = (calls st ++
        [canopen_sdo_download_block_call (handle (sock st))
           (c_uint8 node) (c_uint16 index) (c_uint8 subindex) data len])%list
    /\ List.length data = S k
    /\ len = Z.of_nat k mod 2 ^ 16
    /\ (Z.of_nat k < 2 ^ 16 -> len = Z.of_nat k).
Proof.
  intros Hne Hev Hs k.
  pose proof (nonempty_even_length str_data Hne Hev) as Hl.
  destruct (SDODownloadBlock_call node index subindex str_data size st Hs Hl)
    as (data & Ld & Ec).
  exists data, (c_uint16 (Z.of_nat k)). repeat split; try assumption.
  intros Hk. unfold c_uint16. apply Z.mod_small. lia.
Qed.

(** C4, amended.  For a non-empty even-length hexadecimal string with [k]
    decoded bytes, [SDODownloadSeg] makes one native call whose size
    argument is [c_uint16(n)] with [n = k - 1] the value the loop variable
    is left with, that is [k - 1] modulo 2^16; it is exactly [k - 1]
    whenever [k <= 2^16]. *)
Theorem SDODownloadSeg_size_argument (node index subindex : Z)
    (str_data : string) (size : Z) (st : Instance World) :
  str_data <> EmptyString ->
  Nat.even (String.length str_data) = true ->
  all_hex str_data = true ->
  let k := (String.length str_data / 2)%nat in
  exists data len,
    calls (snd (SDODownloadSeg lib node index subindex str_data size st))
    = (calls st ++
        [canopen_sdo_download_seg_call (handle (sock st))
           (c_uint8 node) (c_uint16 index) (c_uint8 subindex) data len])%list
    /\ List.length data = S k
    /\ len = (Z.of_nat k - 1) mod 2 ^ 16
    /\ (Z.of_nat k <= 2 ^ 16 -> len = Z.of_nat k - 1).
Proof.
  intros Hne Hev Hs k.
  pose proof (nonempty_even_length str_data Hne Hev) as Hl.
  destruct (SDODownloadSeg_call node index subindex str_data size st Hs Hl)
    as (data & Ld & Ec).
  exists data, (c_uint16 (Z.of_nat k - 1)). repeat split; try assumption.
  intros Hk. unfold c_uint16. apply Z.mod_small.
  assert (1 <= k)%nat by (apply Nat.div_le_lower_bound; lia). lia.
Qed.

End SDO.

(** ** Which exceptions can come out *)

Lemma hex_prefix_raises (data : list ascii) (rng : list nat) (e : exn) :
  hex_prefix data rng = Raise e -> e = IndexError.
Proof.
  induction rng as [|i rng IH]; cbn [hex_prefix]; [discriminate|].
  destruct (nth_error data i); [|intros H; now injection H].
  destruct (hex_prefix data rng); [discriminate|].
  intros H. injection H as <-. now apply IH.
Qed.

Lemma comprehension_raises (s : string) (rng : list nat) (n : option nat)
    (e : exn) :
  comprehension s rng n = Raise e -> e = ValueError.
Proof.
  revert n. induction rng as [|i rng IH]; intros n; cbn [comprehension];
    [discriminate|].
  destruct (int16 _) as [v|]; [|intros H; now injection H].
  unfold chr. destruct ((0 <=? v) && (v <? 256));
    [|intros H; now injection H].
  destruct (comprehension s rng (Some i)) as [[cs n']|e'] eqn:E;
    [discriminate|].
  intros H. injection H as <-. exact (IH _ E).
Qed.

Section Exceptions.
Context {World : Type}.
Variable lib : Platform World.

Lemma init_returns (interface : string) (st : Instance World) :
  raised (init lib interface st) = None.
Proof. reflexivity. Qed.

Lemma close_returns (st : Instance World) : raised (close lib st) = None.
Proof. rewrite close_eq. destruct (truthy (sock st)); reflexivity. Qed.

Lemma open_returns (interface : string) (st : Instance World) :
  raised (open lib interface st) = None.
Proof.
  unfold open. run_method. destruct (truthy (sock st)).
  - rewrite close_eq. destruct (truthy (sock st)); reflexivity.
  - reflexivity.
Qed.

(** The exceptions each method can end with. *)
Lemma run_raised_cases (op : operation) (st : Instance World) (e : exn) :
  run_raised lib op st = Some e ->
  In e [CANSocketNotConnectedException; CANNothingToReadException;
        CANframeReadException; CANopenFrameParseException;
        CANopenSDOUploadException; AttributeError; NameError; ValueError;
        IndexError].
Proof.
  assert (Hread : forall st0 e0,
             raised (read_can_frame lib st0) = Some e0 ->
             e0 = CANSocketNotConnectedException
             \/ e0 = CANNothingToReadException
             \/ e0 = CANframeReadException).
  { intros st0 e0. rewrite read_can_frame_eq. cbv zeta. unfold raised.
    destruct (truthy _); [destruct (_ =? 16); [|destruct (would_block _ _)]|];
      cbn [fst]; intros H; inversion H; auto. }
  assert (Hparse : forall f st0 e0,
             raised (parse_can_frame lib f st0) = Some e0 ->
             e0 = CANopenFrameParseException).
  { intros f st0 e0. rewrite parse_can_frame_eq. cbv zeta. unfold raised.
    destruct (_ =? 0); cbn [fst]; intros H; inversion H; auto. }
  destruct op; cbn [run_raised].
  - rewrite init_returns. discriminate.
  - rewrite open_returns. discriminate.
  - rewrite close_returns. discriminate.
  - intros H. apply Hread in H. cbn. intuition auto.
  - intros H. apply Hparse in H. cbn. auto.
  - rewrite read_frame_eq.
    destruct (read_can_frame lib st) as [[f|e0] st'] eqn:E.
    + intros H. apply Hparse in H. cbn. auto.
    + intros H. assert (Hr : raised (read_can_frame lib st) = Some e)
        by (rewrite E; exact H).
      apply Hread in Hr. cbn. intuition auto.
  - rewrite SDOUploadExp_eq. cbv zeta. unfold raised.
    destruct (_ =? 0); [|destruct (would_block _ _)]; cbn [fst];
      intros H; inversion H; cbn; auto 10.
  - rewrite SDODownloadExp_eq. cbv zeta. unfold raised.
    destruct (_ =? 0); [|destruct (would_block _ _)]; cbn [fst];
      intros H; inversion H; cbn; auto 10.
  - rewrite SDOUploadSeg_eq. cbv zeta. unfold raised.
    destruct (size <? 0); [cbn [fst]; intros H; inversion H; cbn; auto 10|].
    destruct (_ <? 0); [cbn [fst]; intros H; inversion H; cbn; auto 10|].
    destruct (hex_prefix _ _) as [l|e0] eqn:E; cbn [fst]; [discriminate|].
    intros H. inversion H. subst e0. apply hex_prefix_raises in E.
    subst e. cbn. auto 10.
  - rewrite SDODownloadSeg_eq. cbv zeta. unfold raised.
    destruct (decode_hex str_data) as [[data [n|]]|e0] eqn:E.
    + destruct (_ =? 0); cbn [fst]; intros H; inversion H; cbn; auto 10.
    + cbn [fst]. intros H; inversion H; cbn; auto 10.
    + cbn [fst]. intros H; inversion H. subst e0.
      apply comprehension_raises in E. subst e. cbn. auto 10.
  - rewrite SDOUploadBlock_eq. cbv zeta. unfold raised.
    destruct (size <? 0); [cbn [fst]; intros H; inversion H; cbn; auto 10|].
    destruct (_ =? 0); cbn [fst]; intros H; inversion H; cbn; auto 10.
  - rewrite SDODownloadBlock_eq. cbv zeta. unfold raised.
    destruct (decode_hex str_data) as [[data [n|]]|e0] eqn:E.
    + destruct (_ =? 0); cbn [fst]; intros H; inversion H; cbn; auto 10.
    + cbn [fst]. intros H; inversion H; cbn; auto 10.
    + cbn [fst]. intros H; inversion H. subst e0.
      apply comprehension_raises in E. subst e. cbn. auto 10.
Qed.

(** C9, amended.  No method ever raises CANopenSDODownloadException.  A
    failing [SDODownloadSeg] or [SDODownloadBlock] (the native call returns
    non-zero) raises CANopenSDOUploadException.  A failing
    [SDODownloadExp] raises CANNothingToReadException when errno is EAGAIN
    or EWOULDBLOCK and CANopenSDOUploadException otherwise. *)
Theorem download_failures_classified (st : Instance World) :
  (forall op, run_raised lib op st <> Some CANopenSDODownloadException)
  /\ (forall node index subindex data size,
        let r := download_exp_reply lib st node index subindex data size in
        ret r <> 0 ->
        raised (SDODownloadExp lib node index subindex data size st)
        = Some (if would_block lib (after r)
                then CANNothingToReadException
                else CANopenSDOUploadException))
  /\ (forall node index subindex str_data size data n,
        decode_hex str_data = Return (data, Some n) ->
        ret (download_seg_reply lib st node index subindex data n) <> 0 ->
        raised (SDODownloadSeg lib node index subindex str_data size st)
        = Some CANopenSDOUploadException)
  /\ (forall node index subindex str_data size data n,
        decode_hex str_data = Return (data, Some n) ->
        ret (download_block_reply lib st node index subindex data n) <> 0 ->
        raised (SDODownloadBlock lib node index subindex str_data size st)
        = Some CANopenSDOUploadException).
Proof.
  split; [|split; [|split]].
  - intros op H. apply run_raised_cases in H. cbn in H.
    repeat (destruct H as [H | H]; [discriminate H|]). exact H.
  - intros node index subindex data size r Hr.
    rewrite SDODownloadExp_eq. cbv zeta. fold r.
    apply Z.eqb_neq in Hr. rewrite Hr. unfold raised.
    destruct (would_block lib (after r)); reflexivity.
  - intros node index subindex str_data size data n E Hr.
    rewrite SDODownloadSeg_eq, E. cbv zeta.
    apply Z.eqb_neq in Hr. rewrite Hr. reflexivity.
  - intros node index subindex str_data size data n E Hr.
    rewrite SDODownloadBlock_eq, E. cbv zeta.
    apply Z.eqb_neq in Hr. rewrite Hr. reflexivity.
Qed.


End Exceptions.

(** ** Runs on the scripted platform *)

Lemma hex_zeros_nonempty (k : nat) : (0 < k)%nat -> hex_zeros k <> EmptyString.
Proof. destruct k; [lia | discriminate]. Qed.

(** C1 at a concrete call: node 5 answers the upload of 0x1000:0 with
    0x12345678 and return value 0, and the method raises AttributeError. *)
Lemma SDOUploadExp_success_raises_run :
  ret (upload_exp_reply Scripted.lib (Scripted.connected 0 0) 5 4096 0) = 0
  /\ c_uint32
       (out (upload_exp_reply Scripted.lib (Scripted.connected 0 0) 5 4096 0))
     = 305419896
  /\ fst (SDOUploadExp Scripted.lib 5 4096 0 (Scripted.connected 0 0))
     = Raise AttributeError.
Proof.
  split; [reflexivity|]. split; [reflexivity|].
  exact (SDOUploadExp_success_raises Scripted.lib 5 4096 0
           (Scripted.connected 0 0) eq_refl).
Defined.

(** C5 at a concrete call.  The native expedited upload of 0x2000:1 from
    node 1 reports success, and [SDOUploadExp] nevertheless ends in an
    exception, while a failing call with the same arguments raises the
    module's own exception. *)
Theorem SDOUploadExp_raises_without_failure :
  ret (upload_exp_reply Scripted.lib (Scripted.connected 0 0) 1 8193 1) = 0
  /\ raised (SDOUploadExp Scripted.lib 1 8193 1 (Scripted.connected 0 0))
     = Some AttributeError
  /\ raised (SDOUploadExp Scripted.lib 1 8193 1 (Scripted.connected (-1) 0))
     = Some CANopenSDOUploadException.
Proof. repeat split. Qed.

(** C2 as stated fails: a successful block upload into a 2-byte buffer
    holding de ad returns the two characters of the first byte only. *)
Lemma SDOUploadBlock_two_bytes_one_shown :
  ret (upload_block_reply Scripted.lib (Scripted.connected 0 0) 5 4096 0 2) = 0
  /\ fst (SDOUploadBlock Scripted.lib 5 4096 0 2 (Scripted.connected 0 0))
     = Return "de"
  /\ String.length "de" <> Z.to_nat (2 * 2).
Proof. repeat split. discriminate. Qed.

Lemma SDOUploadBlock_returns_all_but_last_run :
  exists hex_str,
    fst (SDOUploadBlock Scripted.lib 5 4096 0 2 (Scripted.connected 0 0))
    = Return hex_str
    /\ List.length
         (stored (repeat zero (Z.to_nat 2))
            (out (upload_block_reply Scripted.lib (Scripted.connected 0 0)
                    5 4096 0 2)))
       = Z.to_nat 2
    /\ hex_str
       = join (map (fun d => fmt_02x (ord d))
                 (firstn (Z.to_nat 2 - 1)
                    (stored (repeat zero (Z.to_nat 2))
                       (out (upload_block_reply Scripted.lib
                               (Scripted.connected 0 0) 5 4096 0 2)))))
    /\ String.length hex_str = (2 * (Z.to_nat 2 - 1))%nat.
Proof.
  refine (SDOUploadBlock_returns_all_but_last Scripted.lib 5 4096 0 2
            (Scripted.connected 0 0) _ eq_refl).
  discriminate.
Defined.

(** C3 as stated fails: for 65536 decoded bytes the length argument is 0. *)
Lemma SDODownloadBlock_length_wraps :
  zeros_65536 <> EmptyString
  /\ Nat.even (String.length zeros_65536) = true
  /\ all_hex zeros_65536 = true
  /\ exists data,
       calls (snd (SDODownloadBlock Scripted.lib 5 4096 0 zeros_65536 0
                     (Scripted.connected 0 0)))
       = [canopen_sdo_download_block_call 3 5 4096 0 data 0]
       /\ 0 <> Z.of_nat (String.length zeros_65536 / 2).
Proof.
  unfold zeros_65536. split; [apply hex_zeros_nonempty; lia|].
  split; [apply even_hex_zeros|]. split; [apply all_hex_zeros|].
  destruct (SDODownloadBlock_call Scripted.lib 5 4096 0
              (hex_zeros (Z.to_nat 65536)) 0 (Scripted.connected 0 0)
              (all_hex_zeros _)) as (data & _ & E).
  { rewrite length_hex_zeros. lia. }
  exists data. rewrite E, half_hex_zeros. split.
  - rewrite Z2Nat.id by lia. reflexivity.
  - lia.
Qed.

Lemma SDODownloadBlock_length_argument_run :
  exists data len,
    calls (snd (SDODownloadBlock Scripted.lib 5 4096 0 "0a1b2c" 0
                  (Scripted.connected 0 0)))
    = [canopen_sdo_download_block_call 3 5 4096 0 data len]
    /\ List.length data = 4%nat
    /\ len = 3 mod 2 ^ 16
    /\ (3 < 2 ^ 16 -> len = 3).
Proof.
  refine (SDODownloadBlock_length_argument Scripted.lib 5 4096 0 "0a1b2c" 0
            (Scripted.connected 0 0) _ eq_refl eq_refl).
  discriminate.
Defined.

(** C4 as stated fails: for 65537 decoded bytes the size argument is 0,
    not 65536. *)
Lemma SDODownloadSeg_size_wraps :
  zeros_65537 <> EmptyString
  /\ Nat.even (String.length zeros_65537) = true
  /\ all_hex zeros_65537 = true
  /\ exists data,
       calls (snd (SDODownloadSeg Scripted.lib 5 4096 0 zeros_65537 0
                     (Scripted.connected 0 0)))
       = [canopen_sdo_download_seg_call 3 5 4096 0 data 0]
       /\ 0 <> Z.of_nat (String.length zeros_65537 / 2) - 1.
Proof.
  unfold zeros_65537. split; [apply hex_zeros_nonempty; lia|].
  split; [apply even_hex_zeros|]. split; [apply all_hex_zeros|].
  destruct (SDODownloadSeg_call Scripted.lib 5 4096 0
              (hex_zeros (Z.to_nat 65537)) 0 (Scripted.connected 0 0)
              (all_hex_zeros _)) as (data & _ & E).
  { rewrite length_hex_zeros. lia. }
  exists data. rewrite E, half_hex_zeros. split.
  - rewrite Z2Nat.id by lia. reflexivity.
  - lia.
Qed.

Lemma SDODownloadSeg_size_argument_run :
  exists data len,
    calls (snd (SDODownloadSeg Scripted.lib 5 4096 0 "0a1b2c" 0
                  (Scripted.connected 0 0)))
    = [canopen_sdo_download_seg_call 3 5 4096 0 data len]
    /\ List.length data = 4%nat
    /\ len = (3 - 1) mod 2 ^ 16
    /\ (3 <= 2 ^ 16 -> len = 3 - 1).
Proof.
  refine (SDODownloadSeg_size_argument Scripted.lib 5 4096 0 "0a1b2c" 0
            (Scripted.connected 0 0) _ eq_refl eq_refl).
  discriminate.
Defined.

(** C6 at a concrete call: a read that returns -1 with errno 11. *)
Lemma read_can_frame_short_read_run :
  fst (read_can_frame Scripted.lib (Scripted.connected (-1) 11))
  = Raise CANNothingToReadException.
Proof.
  refine (proj1 (read_can_frame_short_read Scripted.lib
                   (Scripted.connected (-1) 11) eq_refl _) _).
  - discriminate.
  - left. reflexivity.
Defined.

Lemma scripted_decoder_checks_length : decoder_checks_length Scripted.lib.
Proof.
  intros f w H. cbn. rewrite H. discriminate.
Defined.

(** C7 at a concrete frame with dlc 3. *)
Lemma parse_can_frame_all_or_nothing_run :
  fst (parse_can_frame Scripted.lib Scripted.short_frame
         (Scripted.connected 0 0))
  = Raise CANopenFrameParseException.
Proof.
  refine (proj1 (proj2 (parse_can_frame_all_or_nothing Scripted.lib
                          Scripted.short_frame (Scripted.connected 0 0)
                          scripted_decoder_checks_length)) _).
  discriminate.
Defined.

(** C9 as stated fails: an expedited download that fails with errno 11 is
    reported as CANNothingToReadException. *)
Lemma SDODownloadExp_would_block :
  ret (download_exp_reply Scripted.lib (Scripted.connected (-1) 11)
         5 4096 0 7 1) <> 0
  /\ raised (SDODownloadExp Scripted.lib 5 4096 0 7 1
               (Scripted.connected (-1) 11))
     = Some CANNothingToReadException
  /\ CANNothingToReadException <> CANopenSDOUploadException.
Proof. repeat split; discriminate. Qed.

Lemma download_failures_classified_run :
  raised (SDODownloadBlock Scripted.lib 5 4096 0 "0a1b2c" 0
            (Scripted.connected (-1) 0))
  = Some CANopenSDOUploadException.
Proof.
  refine (proj2 (proj2 (proj2 (download_failures_classified Scripted.lib
                                 (Scripted.connected (-1) 0))))
            5 4096 0 "0a1b2c" 0 _ _ eq_refl _).
  discriminate.
Defined.

(** C10 at a closed instance. *)
Lemma absent_socket_no_foreign_call_run :
  read_can_frame Scripted.lib (Scripted.closed 0 0)
  = (Raise CANSocketNotConnectedException, Scripted.closed 0 0)
  /\ close Scripted.lib (Scripted.closed 0 0)
     = (Return tt, Scripted.closed 0 0)
  /\ forall st0,
       close Scripted.lib (snd (close Scripted.lib st0))
       = close Scripted.lib st0.
Proof.
  exact (absent_socket_no_foreign_call Scripted.lib (Scripted.closed 0 0)
           eq_refl).
Defined.

(** ** Opening, closing and reading in sequence *)

Section Lifecycle.
Context {World : Type}.
Variable lib : Platform World.


(** X2.  [__init__] stores whatever [can_socket_open] returns, and
    [read_can_frame] refuses to read only when that value is 0: any other
    value, a negative error return included, is read from. *)
Theorem init_then_read (interface : string) (st : Instance World) :
  let st' := snd (init lib interface st) in
  let d := ret (can_socket_open lib interface (world st)) in
  sock st' = Some d
  /\ (d = 0 ->
      read_can_frame lib st' = (Raise CANSocketNotConnectedException, st'))
  /\ (d <> 0 ->
      calls (snd (read_can_frame lib st'))
      = (calls st ++ [can_socket_open_call interface; read_call d 16])%list).
Proof.
  cbv zeta. unfold init. run_method. split; [reflexivity|]. split.
  - intros Hd. rewrite read_can_frame_eq. cbn [sock truthy]. rewrite Hd.
    reflexivity.
  - intros Hd. rewrite read_can_frame_eq. cbn [sock truthy handle].
    apply Z.eqb_neq in Hd. rewrite Hd. cbn [negb]. cbv zeta.
    destruct (ret _ =? 16); [|destruct (would_block _ _)];
      cbn [snd calls]; now rewrite <- app_assoc.
Qed.

(** X3.  After [close], from any state, the instance has no socket:
    [read_can_frame] and [read_frame] raise CANSocketNotConnectedException
    and make no foreign call. *)
Theorem read_after_close (st : Instance World) :
  let st' := snd (close lib st) in
  truthy (sock st') = false
  /\ read_can_frame lib st' = (Raise CANSocketNotConnectedException, st')
  /\ read_frame lib st' = (Raise CANSocketNotConnectedException, st').
Proof.
  cbv zeta.
  assert (H : truthy (sock (snd (close lib st))) = false).
  { rewrite close_eq. destruct (truthy (sock st)) eqn:E; [reflexivity|].
    exact E. }
  split; [exact H|].
  assert (R : read_can_frame lib (snd (close lib st))
              = (Raise CANSocketNotConnectedException, snd (close lib st))).
  { rewrite read_can_frame_eq, H. reflexivity. }
  split; [exact R|]. rewrite read_frame_eq, R. reflexivity.
Qed.

(** X4.  [read_frame] on an instance with a socket: it reads once; only after a
    full 16-byte read does it call the decoder, on exactly the frame read and
    in the world the read left; it returns the decoder's frame when the
    decoder returns 0 and raises CANopenFrameParseException otherwise.  A
    short read raises what [read_can_frame] raises and the decoder is not
    called. *)
Theorem read_frame_steps (st : Instance World) :
  truthy (sock st) = true ->
  let r := read_reply lib st in
  let st1 := mk_instance (sock st) (after r)
               (calls st ++ [read_call (handle (sock st)) 16]) in
  let p := parse_reply lib st1 (out r) in
  let st2 := mk_instance (sock st) (after p)
               (calls st ++ [read_call (handle (sock st)) 16;
                             canopen_frame_parse_call (out r)]) in
  (ret r = 16 -> ret p = 0 -> read_frame lib st = (Return (out p), st2))
  /\ (ret r = 16 -> ret p <> 0 ->
      read_frame lib st = (Raise CANopenFrameParseException, st2))
  /\ (ret r <> 16 ->
      raised (read_frame lib st) = raised (read_can_frame lib st)
      /\ raised (read_frame lib st) <> None
      /\ snd (read_frame lib st) = st1).
Proof.
  intros Hs r st1 p st2. rewrite read_frame_eq, read_can_frame_eq, Hs.
  cbv zeta. fold r. fold st1.
  assert (Hst2 : mk_instance (sock st1) (after p)
                   (calls st1 ++ [canopen_frame_parse_call (out r)]) = st2).
  { unfold st1, st2. cbn [sock calls]. now rewrite <- app_assoc. }
  repeat split.
  - intros Hr Hp. apply Z.eqb_eq in Hr, Hp. rewrite Hr.
    rewrite parse_can_frame_eq. cbv zeta. fold p. now rewrite Hp, Hst2.
  - intros Hr Hp. apply Z.eqb_eq in Hr. apply Z.eqb_neq in Hp. rewrite Hr.
    rewrite parse_can_frame_eq. cbv zeta. fold p. now rewrite Hp, Hst2.
  - apply Z.eqb_neq in H. rewrite H.
    destruct (would_block lib (after r)); reflexivity.
  - apply Z.eqb_neq in H. rewrite H.
    destruct (would_block lib (after r)); discriminate.
  - apply Z.eqb_neq in H. rewrite H.
    destruct (would_block lib (after r)); reflexivity.
Qed.

End Lifecycle.

(** ** More on the hexadecimal strings *)

Lemma all_hex_fmt (d : ascii) : all_hex (fmt_02x (ord d)) = true.
Proof. each_ascii d; reflexivity. Qed.

Lemma int16_fmt (d : ascii) :
  exists v, int16 (fmt_02x (ord d)) = Some v /\ chr v = Return d.
Proof. each_ascii d; eexists; split; reflexivity. Qed.

Lemma hexlify_cons (d : ascii) (l : list ascii) :
  hexlify (d :: l)
  = String (hexchar (ord d / 16)) (String (hexchar (ord d mod 16)) (hexlify l)).
Proof. apply join_fmt_cons. Qed.

Lemma all_hex_hexlify (l : list ascii) : all_hex (hexlify l) = true.
Proof.
  induction l as [|d l IH]; [reflexivity|].
  rewrite hexlify_cons. pose proof (all_hex_fmt d) as H.
  unfold fmt_02x in H. cbn [all_hex] in *.
  apply andb_prop in H as [H1 H2]. apply andb_prop in H2 as [H2 _].
  now rewrite H1, H2, IH.
Qed.

Lemma length_hexlify (l : list ascii) :
  String.length (hexlify l) = (2 * List.length l)%nat.
Proof. apply length_join_fmt. Qed.

Lemma substring_hexlify (l : list ascii) (a : nat) (d : ascii) :
  nth_error l a = Some d ->
  substring (2 * a) 2 (hexlify l) = fmt_02x (ord d).
Proof.
  revert l. induction a as [|a IH]; intros [|x l] H; try discriminate.
  - cbn in H. injection H as ->. rewrite hexlify_cons. cbn.
    destruct (hexlify l); reflexivity.
  - cbn [nth_error] in H. rewrite hexlify_cons.
    replace (2 * S a)%nat with (S (S (2 * a))) by lia. cbn [substring].
    now apply IH.
Qed.

Lemma comprehension_hexlify (l : list ascii) (k a : nat) (n0 : option nat) :
  (a + k <= List.length l)%nat ->
  comprehension (hexlify l) (seq a k) n0
  = Return (firstn k (skipn a l),
            match k with O => n0 | S _ => Some (a + k - 1)%nat end).
Proof.
  revert a n0. induction k as [|k IH]; intros a n0 Hk; [reflexivity|].
  cbn [seq comprehension].
  destruct (nth_error l a) as [d|] eqn:E;
    [|apply nth_error_None in E; lia].
  rewrite (substring_hexlify l a d E).
  destruct (int16_fmt d) as (v & Ev & Ec). rewrite Ev, Ec.
  rewrite IH by lia.
  assert (Hs : skipn a l = d :: skipn (S a) l).
  { clear - E. revert l E. induction a as [|a IH]; intros [|x l] E;
      try discriminate; cbn in *.
    - now injection E as ->.
    - now apply IH. }
  rewrite Hs. cbn [firstn]. f_equal. f_equal. destruct k; f_equal; lia.
Qed.

(** Decoding undoes [hexlify]. *)
Lemma decode_hex_hexlify (l : list ascii) :
  decode_hex (hexlify l)
  = Return (l, match l with [] => None | _ => Some (List.length l - 1)%nat end).
Proof.
  unfold decode_hex. rewrite length_hexlify.
  replace (2 * List.length l / 2)%nat with (List.length l)
    by (rewrite Nat.mul_comm, Nat.div_mul; [reflexivity | discriminate]).
  rewrite comprehension_hexlify by lia.
  cbn [skipn Nat.add]. rewrite firstn_all. destruct l; reflexivity.
Qed.

Lemma last_cons_default {A : Type} (l : list A) (a d : A) :
  last (a :: l) d = last l a.
Proof.
  revert a d. induction l as [|y l IH]; intros a d; [reflexivity|].
  change (last (a :: y :: l) d) with (last (y :: l) d). now rewrite !IH.
Qed.

(** What the loop leaves, whatever the string. *)
Lemma comprehension_shape (s : string) (rng : list nat) (n0 n : option nat)
    (cs : list ascii) :
  comprehension s rng n0 = Return (cs, n) ->
  List.length cs = List.length rng /\ n = last (map Some rng) n0.
Proof.
  revert n0 cs. induction rng as [|i rng IH]; intros n0 cs; cbn [comprehension].
  - intros H. injection H as <- <-. split; reflexivity.
  - destruct (int16 _) as [v|]; [|discriminate].
    destruct (chr v) as [c|]; [|discriminate].
    destruct (comprehension s rng (Some i)) as [[cs' n']|] eqn:E;
      [|discriminate].
    intros H. injection H as <- <-. destruct (IH _ _ E) as [L N].
    split; [cbn; now rewrite L|]. rewrite N. cbn [map].
    now rewrite last_cons_default.
Qed.

Lemma decode_hex_shape (s : string) (cs : list ascii) (n : nat) :
  decode_hex s = Return (cs, Some n) ->
  List.length cs = (String.length s / 2)%nat
  /\ S n = (String.length s / 2)%nat.
Proof.
  unfold decode_hex. intros H. apply comprehension_shape in H as [L N].
  rewrite length_seq in L. split; [exact L|].
  destruct (String.length s / 2)%nat as [|m]; [discriminate N|].
  rewrite <- Nat.add_1_r, seq_app, map_app in N. cbn [seq map] in N.
  rewrite last_last in N. injection N as ->. reflexivity.
Qed.

Lemma decode_hex_short (s : string) :
  (String.length s < 2)%nat -> decode_hex s = Return ([], None).
Proof.
  intros H. unfold decode_hex.
  replace (String.length s / 2)%nat with O
    by (symmetry; apply Nat.div_small; exact H).
  reflexivity.
Qed.

Lemma decode_hex_raises (s : string) (e : exn) :
  decode_hex s = Raise e -> e = ValueError.
Proof. apply comprehension_raises. Qed.

Lemma substring_append (s t : string) (n m : nat) :
  (n + m <= String.length s)%nat ->
  substring n m (s ++ t) = substring n m s.
Proof.
  revert n m. induction s as [|c s IH]; intros n m H; cbn in H.
  - assert (n = O) by lia. assert (m = O) by lia. subst. cbn.
    destruct t; reflexivity.
  - destruct n as [|n].
    + destruct m as [|m]; [reflexivity|]. cbn. f_equal. apply IH. lia.
    + cbn. apply IH. lia.
Qed.

Lemma comprehension_ext (s t : string) (rng : list nat) (n0 : option nat) :
  (forall i, In i rng -> substring (2 * i) 2 s = substring (2 * i) 2 t) ->
  comprehension s rng n0 = comprehension t rng n0.
Proof.
  revert n0. induction rng as [|i rng IH]; intros n0 H; [reflexivity|].
  cbn [comprehension]. rewrite (H i) by (left; reflexivity).
  rewrite IH by (intros j Hj; apply H; right; exact Hj). reflexivity.
Qed.

Lemma length_append (s t : string) :
  String.length (s ++ t) = (String.length s + String.length t)%nat.
Proof. induction s as [|c s IH]; cbn; [reflexivity | now rewrite IH]. Qed.

(** A trailing odd character does not take part in the decoding. *)
Lemma decode_hex_odd (s : string) (c : ascii) :
  Nat.even (String.length s) = true ->
  decode_hex (s ++ String c EmptyString) = decode_hex s.
Proof.
  intros Hev. unfold decode_hex. rewrite length_append. cbn [String.length].
  apply Nat.even_spec in Hev. destruct Hev as [h Hh]. rewrite Hh.
  replace ((2 * h + 1) / 2)%nat with h
    by (apply Nat.div_unique with 1%nat; lia).
  replace (2 * h / 2)%nat with h
    by (rewrite Nat.mul_comm, Nat.div_mul; [reflexivity | discriminate]).
  apply comprehension_ext. intros i Hi. apply in_seq in Hi.
  apply substring_append. lia.
Qed.

(** ** More on the SDO transfers *)

Section Transfers.
Context {World : Type}.
Variable lib : Platform World.

(** X5.  A segmented upload that reports [ret] bytes, with [0 <= ret <= size],
    returns the first [ret] bytes of the buffer in hexadecimal: [2 * ret]
    lower-case digits, unlike the block upload nothing is cut off. *)
Theorem SDOUploadSeg_returns_prefix (node index subindex size : Z)
    (st : Instance World) :
  let r := upload_seg_reply lib st node index subindex size in
  let data := stored (repeat zero (Z.to_nat size)) (out r) in
  0 <= ret r <= size ->
  fst (SDOUploadSeg lib node index subindex size st)
  = Return (hexlify (firstn (Z.to_nat (ret r)) data))
  /\ String.length (hexlify (firstn (Z.to_nat (ret r)) data))
     = (2 * Z.to_nat (ret r))%nat
  /\ all_hex (hexlify (firstn (Z.to_nat (ret r)) data)) = true.
Proof.
  intros r data Hr. rewrite SDOUploadSeg_eq.
  replace (size <? 0) with false by (symmetry; apply Z.ltb_ge; lia).
  cbv zeta. fold r. fold data.
  replace (ret r <? 0) with false by (symmetry; apply Z.ltb_ge; lia).
  assert (Hlen : List.length data = Z.to_nat size)
    by (unfold data; now rewrite length_stored, repeat_length).
  unfold range. rewrite hex_prefix_within by lia. cbn [skipn fst].
  split; [reflexivity|]. split; [|apply all_hex_hexlify].
  rewrite length_hexlify, length_firstn. lia.
Qed.

(** X6.  A segmented upload that reports more bytes than the buffer holds makes
    the method index past the end of the buffer: IndexError, after the
    native call has been made. *)
Theorem SDOUploadSeg_overlong (node index subindex size : Z)
    (st : Instance World) :
  let r := upload_seg_reply lib st node index subindex size in
  0 <= size -> size < ret r ->
  SDOUploadSeg lib node index subindex size st
  = (Raise IndexError,
     mk_instance (sock st) (after r)
       (calls st ++
          [canopen_sdo_upload_seg_call (handle (sock st)) (c_uint8 node)
             (c_uint16 index) (c_uint8 subindex)
             (repeat zero (Z.to_nat size)) (c_uint16 size)])).
Proof.
  intros r Hs Hr. rewrite SDOUploadSeg_eq.
  replace (size <? 0) with false by (symmetry; apply Z.ltb_ge; lia).
  cbv zeta. fold r.
  replace (ret r <? 0) with false by (symmetry; apply Z.ltb_ge; lia).
  unfold range. rewrite hex_prefix_beyond; [reflexivity|].
  rewrite length_stored, repeat_length. lia.
Qed.


(** X8.  With fewer than two characters there is no pair to decode, the loop
    variable is never bound, and both downloads raise NameError before any
    native call. *)
Theorem download_short_string (node index subindex : Z) (str_data : string)
    (size : Z) (st : Instance World) :
  (String.length str_data < 2)%nat ->
  SDODownloadSeg lib node index subindex str_data size st
  = (Raise NameError, st)
  /\ SDODownloadBlock lib node index subindex str_data size st
     = (Raise NameError, st).
Proof.
  intros H. rewrite SDODownloadSeg_eq, SDODownloadBlock_eq.
  rewrite (decode_hex_short str_data H). split; reflexivity.
Qed.

(** X9.  The string an upload returns is accepted by a download and decodes to
    the same bytes: given the hexadecimal form of a non-empty [data],
    [SDODownloadBlock] hands the library [data] followed by a NUL, with
    length [len(data)] as a 16-bit value. *)
Theorem SDODownloadBlock_of_hexlify (node index subindex : Z)
    (data : list ascii) (size : Z) (st : Instance World) :
  data <> [] ->
  decode_hex (hexlify data) = Return (data, Some (List.length data - 1)%nat)
  /\ calls (snd (SDODownloadBlock lib node index subindex (hexlify data) size
                   st))
     = (calls st ++
          [canopen_sdo_download_block_call (handle (sock st)) (c_uint8 node)
             (c_uint16 index) (c_uint8 subindex) (data ++ [zero])
             (c_uint16 (Z.of_nat (List.length data)))])%list.
Proof.
  intros Hne.
  assert (E : decode_hex (hexlify data)
              = Return (data, Some (List.length data - 1)%nat))
    by (rewrite decode_hex_hexlify; destruct data; [congruence | reflexivity]).
  split; [exact E|]. rewrite SDODownloadBlock_eq, E. cbv zeta.
  replace (Z.of_nat (List.length data - 1) + 1)
    with (Z.of_nat (List.length data))
    by (destruct data; [congruence | cbn [List.length]; lia]).
  destruct (ret _ =? 0); reflexivity.
Qed.

(** X10.  An odd character at the end of the string is dropped without notice:
    both downloads behave on [s ++ c] exactly as on the even-length [s]. *)
Theorem download_ignores_odd_character (node index subindex : Z)
    (s : string) (c : ascii) (size : Z) (st : Instance World) :
  Nat.even (String.length s) = true ->
  SDODownloadSeg lib node index subindex (s ++ String c EmptyString) size st
  = SDODownloadSeg lib node index subindex s size st
  /\ SDODownloadBlock lib node index subindex (s ++ String c EmptyString)
       size st
     = SDODownloadBlock lib node index subindex s size st.
Proof.
  intros H. rewrite !SDODownloadSeg_eq, !SDODownloadBlock_eq.
  rewrite (decode_hex_odd s c H). split; reflexivity.
Qed.

(** X11.  A download sends all of the string or nothing: either no native call is
    made, the state is untouched and the method raised NameError or
    ValueError, or exactly one call is made, with a buffer of [len/2 + 1]
    bytes. *)
Theorem download_all_or_nothing (node index subindex : Z) (str_data : string)
    (size : Z) (st : Instance World) :
  let after_seg := SDODownloadSeg lib node index subindex str_data size st in
  let after_block :=
    SDODownloadBlock lib node index subindex str_data size st in
  (snd after_seg = st /\ snd after_block = st
   /\ raised after_seg = raised after_block
   /\ (raised after_seg = Some NameError
       \/ raised after_seg = Some ValueError))
  \/ (exists c1 c2 data,
        calls (snd after_seg) = (calls st ++ [c1])%list
        /\ calls (snd after_block) = (calls st ++ [c2])%list
        /\ buffer_and_length c1
           = Some (data, c_uint16 (Z.of_nat (String.length str_data / 2) - 1))
        /\ buffer_and_length c2
           = Some (data, c_uint16 (Z.of_nat (String.length str_data / 2)))
        /\ List.length data = S (String.length str_data / 2)).
Proof.
  cbv zeta. rewrite SDODownloadSeg_eq, SDODownloadBlock_eq.
  destruct (decode_hex str_data) as [[cs [n|]]|e] eqn:E.
  - right. destruct (decode_hex_shape _ _ _ E) as [L N]. cbv zeta.
    eexists _, _, (string_buffer_of cs).
    split; [destruct (ret _ =? 0); reflexivity|].
    split; [destruct (ret _ =? 0); reflexivity|].
    cbn [buffer_and_length]. rewrite <- N.
    split; [do 3 f_equal; lia|]. split; [do 3 f_equal; lia|].
    unfold string_buffer_of. rewrite length_app, L, <- N. cbn. lia.
  - left. repeat split. left. reflexivity.
  - left. apply decode_hex_raises in E. subst e. repeat split.
    right. reflexivity.
Qed.

(** X12.  Node, index and sub-index are not range-checked: they wrap like the C
    types they are converted to, so values that agree modulo 2^8, 2^16 and
    2^8 give the same run of every SDO method. *)
Theorem sdo_address_wraps (node index subindex a b c : Z)
    (st : Instance World) :
  let node' := node + a * 2 ^ 8 in
  let index' := index + b * 2 ^ 16 in
  let subindex' := subindex + c * 2 ^ 8 in
  (SDOUploadExp lib node' index' subindex' st
   = SDOUploadExp lib node index subindex st)
  /\ (forall data size,
         SDODownloadExp lib node' index' subindex' data size st
         = SDODownloadExp lib node index subindex data size st)
  /\ (forall size,
         SDOUploadSeg lib node' index' subindex' size st
         = SDOUploadSeg lib node index subindex size st)
  /\ (forall str_data size,
         SDODownloadSeg lib node' index' subindex' str_data size st
         = SDODownloadSeg lib node index subindex str_data size st)
  /\ (forall size,
         SDOUploadBlock lib node' index' subindex' size st
         = SDOUploadBlock lib node index subindex size st)
  /\ (forall str_data size,
         SDODownloadBlock lib node' index' subindex' str_data size st
         = SDODownloadBlock lib node index subindex str_data size st).
Proof.
  cbv zeta.
  assert (Hn : c_uint8 (node + a * 2 ^ 8) = c_uint8 node)
    by (unfold c_uint8; apply Z_mod_plus_full).
  assert (Hi : c_uint16 (index + b * 2 ^ 16) = c_uint16 index)
    by (unfold c_uint16; apply Z_mod_plus_full).
  assert (Hs : c_uint8 (subindex + c * 2 ^ 8) = c_uint8 subindex)
    by (unfold c_uint8; apply Z_mod_plus_full).
  repeat split; intros;
    unfold SDOUploadExp, SDODownloadExp, SDOUploadSeg, SDODownloadSeg,
      SDOUploadBlock, SDODownloadBlock;
    rewrite Hn, Hi, Hs; reflexivity.
Qed.

End Transfers.

(** ** What every method does to the instance and the log *)

Lemma c_uint8_range (z : Z) : 0 <= c_uint8 z < 2 ^ 8.
Proof. unfold c_uint8. apply Z.mod_pos_bound. reflexivity. Qed.

Lemma c_uint16_range (z : Z) : 0 <= c_uint16 z < 2 ^ 16.
Proof. unfold c_uint16. apply Z.mod_pos_bound. reflexivity. Qed.

Lemma c_uint16_le (z : Z) : 0 <= z -> 0 <= c_uint16 z <= z.
Proof.
  intros H. pose proof (c_uint16_range z). split; [lia|].
  unfold c_uint16. apply Z.mod_le; lia.
Qed.

Section Log.
Context {World : Type}.
Variable lib : Platform World.

Local Ltac address :=
  unfold address_in_range; cbn [sdo_address];
  auto using c_uint8_range, c_uint16_range.

Local Ltac no_call :=
  exists []; cbn [snd calls sock];
  rewrite ?app_nil_r; repeat split; auto; cbn; lia.

Local Ltac one_call :=
  eexists [_]; cbn [snd calls sock];
  split; [reflexivity|]; split; [cbn; lia|];
  split; [|intros _; reflexivity];
  constructor; [|constructor]; split; [|address].

Lemma run_state_log (op : operation) (st : Instance World) :
  exists new,
    calls (run_state lib op st) = (calls st ++ new)%list
    /\ (List.length new <= 2)%nat
    /\ Forall well_formed_call new
    /\ (assigns_sock op = false -> sock (run_state lib op st) = sock st).
Proof.
  destruct op; cbn [run_state assigns_sock].
  - (* __init__ *)
    eexists [_]. unfold init. run_method. repeat split; try discriminate.
    + cbn. lia.
    + constructor; [|constructor]. split; exact I.
  - (* open *)
    unfold open. run_method. destruct (truthy (sock st)) eqn:E.
    + rewrite close_eq, E. eexists [_; _]. cbn [fst snd sock world calls].
      rewrite <- app_assoc. repeat split; try discriminate.
      * cbn. lia.
      * repeat constructor.
    + eexists [_]. cbn [snd calls]. repeat split; try discriminate.
      * cbn. lia.
      * repeat constructor.
  - (* close *)
    rewrite close_eq. destruct (truthy (sock st)).
    + eexists [_]. cbn [snd calls]. repeat split; try discriminate.
      * cbn. lia.
      * repeat constructor.
    + no_call.
  - (* read_can_frame *)
    rewrite read_can_frame_eq. destruct (truthy (sock st)); [|no_call].
    cbv zeta. destruct (_ =? 16); [|destruct (would_block _ _)];
      one_call; exact I.
  - (* parse_can_frame *)
    rewrite parse_can_frame_eq. cbv zeta. destruct (_ =? 0); one_call; exact I.
  - (* read_frame *)
    rewrite read_frame_eq, read_can_frame_eq.
    destruct (truthy (sock st)); [|no_call]. cbv zeta.
    destruct (_ =? 16).
    + rewrite parse_can_frame_eq. cbv zeta. cbn [sock calls world].
      eexists [_; _]. rewrite <- app_assoc.
      destruct (_ =? 0); cbn [snd calls sock app];
        (split; [reflexivity|]; split; [cbn; lia|];
         split; [repeat constructor | reflexivity]).
    + destruct (would_block _ _); one_call; exact I.
  - (* SDOUploadExp *)
    rewrite SDOUploadExp_eq. cbv zeta.
    destruct (_ =? 0); [|destruct (would_block _ _)]; one_call; exact I.
  - (* SDODownloadExp *)
    rewrite SDODownloadExp_eq. cbv zeta.
    destruct (_ =? 0); [|destruct (would_block _ _)]; one_call; exact I.
  - (* SDOUploadSeg *)
    rewrite SDOUploadSeg_eq. destruct (size <? 0) eqn:E; [no_call|].
    apply Z.ltb_ge in E. cbv zeta.
    destruct (_ <? 0); [|destruct (hex_prefix _ _)]; one_call;
      unfold within_buffer; cbn [buffer_and_length];
      rewrite repeat_length; pose proof (c_uint16_le size E); lia.
  - (* SDODownloadSeg *)
    rewrite SDODownloadSeg_eq.
    destruct (decode_hex str_data) as [[cs [n|]]|e] eqn:E;
      [|no_call|no_call].
    destruct (decode_hex_shape _ _ _ E) as [L N]. cbv zeta.
    destruct (_ =? 0); one_call;
      unfold within_buffer, string_buffer_of; cbn [buffer_and_length];
      rewrite length_app, L; cbn [List.length];
      pose proof (c_uint16_le (Z.of_nat n)); lia.
  - (* SDOUploadBlock *)
    rewrite SDOUploadBlock_eq. destruct (size <? 0) eqn:E; [no_call|].
    apply Z.ltb_ge in E. cbv zeta.
    destruct (_ =? 0); one_call;
      unfold within_buffer; cbn [buffer_and_length];
      rewrite repeat_length; pose proof (c_uint16_le size E); lia.
  - (* SDODownloadBlock *)
    rewrite SDODownloadBlock_eq.
    destruct (decode_hex str_data) as [[cs [n|]]|e] eqn:E;
      [|no_call|no_call].
    destruct (decode_hex_shape _ _ _ E) as [L N]. cbv zeta.
    destruct (_ =? 0); one_call;
      unfold within_buffer, string_buffer_of; cbn [buffer_and_length];
      rewrite length_app, L; cbn [List.length];
      pose proof (c_uint16_le (Z.of_nat n + 1)); lia.
Qed.

(** X13.  No method rewrites or drops an entry of the call log, and none makes
    more than two foreign calls; apart from [__init__], [open] and [close],
    no method changes [self.sock]: a failed read or transfer never closes or
    reopens the socket. *)
Theorem methods_extend_log (op : operation) (st : Instance World) :
  (exists new,
      calls (run_state lib op st) = (calls st ++ new)%list
      /\ (List.length new <= 2)%nat)
  /\ (assigns_sock op = false -> sock (run_state lib op st) = sock st).
Proof.
  destruct (run_state_log op st) as (new & E & L & _ & S).
  split; [exists new; split; assumption | exact S].
Qed.

(** X14.  Whatever the arguments, the wrapper never tells the library a length
    greater than that of the buffer it passes along, and node, index and
    sub-index always arrive within their C types. *)
Theorem calls_are_well_formed (op : operation) (st : Instance World) :
  exists new,
    calls (run_state lib op st) = (calls st ++ new)%list
    /\ Forall within_buffer new
    /\ Forall address_in_range new.
Proof.
  destruct (run_state_log op st) as (new & E & _ & W & _).
  exists new. split; [exact E|].
  split; eapply Forall_impl; try exact W; intros c [H1 H2]; assumption.
Qed.


End Log.

(** ** Printing *)

Example fmt_x2_values :
  map fmt_x2 [0; 10; 255; 4096; -1] = ["00"; "0a"; "ff"; "1000"; "-01"].
Proof. reflexivity. Qed.

Example CANFrame_str_sdo :
  CANFrame_str Scripted.sdo_frame
  = Formatted "CAN Frame: ID=585 DLC=08 DATA=[43 00 10 00 78 56 34 12]".
Proof. reflexivity. Qed.

Example CANopenFrame_str_sdo :
  CANopenFrame_str (Scripted.parse Scripted.sdo_frame)
  = Formatted
      "CANopen Frame: RTR=0 FC=0x0b ID=0x05 [len=8] 43 00 10 00 78 56 34 12".
Proof. reflexivity. Qed.

Example upload_exception_str :
  CANopenSDOUploadException_str (PyStr "Segmented Upload returns -1")
  = Formatted ("Could not perform SDO Upload. " ++ nl
               ++ "Segmented Upload returns -1").
Proof. reflexivity. Qed.

Lemma append_empty (s : string) : (s ++ EmptyString)%string = s.
Proof. induction s as [|c s IH]; cbn; [reflexivity | now rewrite IH]. Qed.

Lemma fmt_x2_byte_scan :
  forallb (fun n => String.eqb (fmt_x2 (Z.of_nat n)) (fmt_02x n)) (seq 0 256)
  = true.
Proof. vm_compute. reflexivity. Qed.

(** On a byte the general formatter gives the two digits the uploads
    print. *)
Lemma fmt_x2_byte (x : Z) : 0 <= x < 256 -> fmt_x2 x = fmt_02x (Z.to_nat x).
Proof.
  intros H. pose proof fmt_x2_byte_scan as S.
  rewrite forallb_forall in S. specialize (S (Z.to_nat x)).
  rewrite Z2Nat.id in S by lia. apply String.eqb_eq. apply S.
  apply in_seq. lia.
Qed.

Lemma length_fmt_x2_byte (x : Z) :
  0 <= x < 256 -> String.length (fmt_x2 x) = 2%nat.
Proof. intros H. rewrite fmt_x2_byte by exact H. reflexivity. Qed.

Lemma length_data_str (data : list Z) :
  List.length data = 8%nat -> Forall (fun x => 0 <= x < 256) data ->
  String.length (data_str data) = 23%nat.
Proof.
  intros L F.
  do 8 (destruct data as [|? data]; [discriminate L|]).
  destruct data; [|discriminate L].
  repeat match goal with
         | H : Forall _ (_ :: _) |- _ => inversion H; subst; clear H
         end.
  unfold data_str. cbn [map String.concat].
  rewrite !length_append. cbn [String.length].
  rewrite !length_fmt_x2_byte by assumption. reflexivity.
Qed.

(** X18.  Printing a frame never fails, and the data part always lists all eight
    bytes of the array, two digits each, whatever [can_dlc] or [data_len]
    says. *)
Theorem frames_print_eight_bytes :
  (forall f : CANFrame.t,
      CANFrame_str f
      = Formatted ("CAN Frame: ID=" ++ fmt_x2 (CANFrame.can_id f)
                   ++ " DLC=" ++ fmt_x2 (CANFrame.can_dlc f)
                   ++ " DATA=[" ++ data_str (CANFrame.data f) ++ "]"))
  /\ (forall f : CANopenFrame.t,
        CANopenFrame_str f
        = Formatted ("CANopen Frame: RTR=" ++ decimal (CANopenFrame.rtr f)
                     ++ " FC=0x" ++ fmt_x2 (CANopenFrame.function_code f)
                     ++ " ID=0x" ++ fmt_x2 (CANopenFrame.id f)
                     ++ " [len=" ++ decimal (CANopenFrame.data_len f)
                     ++ "] " ++ data_str (CANopenFrame.data f)))
  /\ (forall data : list Z,
        List.length data = 8%nat -> Forall (fun x => 0 <= x < 256) data ->
        String.length (data_str data) = 23%nat).
Proof.
  split; [|split].
  - intros f. unfold CANFrame_str. cbn [py_format prepend append].
    now rewrite ?append_empty.
  - intros f. unfold CANopenFrame_str. cbn [py_format prepend append].
    now rewrite ?append_empty.
  - exact length_data_str.
Qed.


(** ** Further runs on the scripted platform *)

Lemma init_then_read_run :
  calls (snd (read_can_frame Scripted.lib
                (snd (init Scripted.lib "can0" (Scripted.closed 16 0)))))
  = [can_socket_open_call "can0"; read_call 3 16].
Proof.
  refine (proj2 (proj2 (init_then_read Scripted.lib "can0"
                          (Scripted.closed 16 0))) _).
  discriminate.
Defined.

Lemma read_frame_steps_run :
  fst (read_frame Scripted.lib (Scripted.connected 16 0))
  = Return (Scripted.parse Scripted.sdo_frame).
Proof.
  exact (f_equal fst
           (proj1 (read_frame_steps Scripted.lib (Scripted.connected 16 0)
                     eq_refl) eq_refl eq_refl)).
Defined.

Lemma SDOUploadSeg_returns_prefix_run :
  fst (SDOUploadSeg Scripted.lib 5 4096 0 4 (Scripted.connected 2 0))
  = Return "dead".
Proof.
  refine (proj1 (SDOUploadSeg_returns_prefix Scripted.lib 5 4096 0 4
                   (Scripted.connected 2 0) _)).
  split; discriminate.
Defined.

Lemma SDOUploadSeg_overlong_run :
  fst (SDOUploadSeg Scripted.lib 5 4096 0 1 (Scripted.connected 2 0))
  = Raise IndexError.
Proof.
  refine (f_equal fst
            (SDOUploadSeg_overlong Scripted.lib 5 4096 0 1
               (Scripted.connected 2 0) _ eq_refl)).
  discriminate.
Defined.


Lemma download_short_string_run :
  SDODownloadSeg Scripted.lib 5 4096 0 "a" 1 (Scripted.connected 0 0)
  = (Raise NameError, Scripted.connected 0 0)
  /\ SDODownloadBlock Scripted.lib 5 4096 0 "a" 1 (Scripted.connected 0 0)
     = (Raise NameError, Scripted.connected 0 0).
Proof.
  exact (download_short_string Scripted.lib 5 4096 0 "a" 1
           (Scripted.connected 0 0) (le_n 2)).
Defined.

Lemma SDODownloadBlock_of_hexlify_run :
  calls (snd (SDODownloadBlock Scripted.lib 5 4096 0
                (hexlify ["222"%char; "173"%char]) 2
                (Scripted.connected 0 0)))
  = [canopen_sdo_download_block_call 3 5 4096 0
       ["222"%char; "173"%char; zero] 2].
Proof.
  refine (proj2 (SDODownloadBlock_of_hexlify Scripted.lib 5 4096 0
                   ["222"%char; "173"%char] 2 (Scripted.connected 0 0) _)).
  discriminate.
Defined.

Lemma download_ignores_odd_character_run :
  SDODownloadSeg Scripted.lib 5 4096 0 "0a1bc" 0 (Scripted.connected 0 0)
  = SDODownloadSeg Scripted.lib 5 4096 0 "0a1b" 0 (Scripted.connected 0 0)
  /\ SDODownloadBlock Scripted.lib 5 4096 0 "0a1bc" 0 (Scripted.connected 0 0)
     = SDODownloadBlock Scripted.lib 5 4096 0 "0a1b" 0
         (Scripted.connected 0 0).
Proof.
  exact (download_ignores_odd_character Scripted.lib 5 4096 0 "0a1b"
           "c"%char 0 (Scripted.connected 0 0) eq_refl).
Defined.

Lemma methods_extend_log_run :
  sock (run_state Scripted.lib (do_SDOUploadExp 5 4096 0)
          (Scripted.connected (-1) 0))
  = Some 3.
Proof.
  exact (proj2 (methods_extend_log Scripted.lib (do_SDOUploadExp 5 4096 0)
                  (Scripted.connected (-1) 0)) eq_refl).
Defined.



Lemma frames_print_eight_bytes_run :
  String.length (data_str (CANFrame.data Scripted.sdo_frame)) = 23%nat.
Proof.
  refine (proj2 (proj2 frames_print_eight_bytes)
            (CANFrame.data Scripted.sdo_frame) eq_refl _).
  repeat constructor; discriminate.
Defined.
